(** * Android UI Automator MCP server: dispatcher and backend client

    A shallow embedding of [mcp_server/android_client.py] (class
    [AndroidClient]) and [mcp_server/server.py] (class
    [UIAutomatorMCPServer]) together with the properties of the
    tool-dispatch layer: which payload each tool sends to the backend, how
    failures are turned into JSON envelopes, and what the resource reader
    returns.

    Conventions.
    - A Python [str] is a Rocq [string] holding its UTF-8 encoding.
    - A Python [dict] with string keys is an association list in insertion
      order ([json.dumps] prints keys in that order); a well-formed one has
      no repeated key.
    - Awaited calls run one after the other inside one handler, so an
      [async def] is a state-passing function over the client object, the
      backend and the list of requests issued so far.
    - Raised exceptions are values of [py_exception]; [try]/[except] is
      [try_except]. *)

From Stdlib Require Import String Ascii List ZArith NArith Bool Lia DecimalString.
Import ListNotations.
Open Scope string_scope.
Open Scope Z_scope.

Set Implicit Arguments.
Set Warnings "-register-all".

(* ================================================================== *)
(** ** JSON values, as Python's [json] module decodes them *)

Inductive json : Type :=
| JNull                                   (* None *)
| JBool (b : bool)                        (* True / False *)
| JInt (z : Z)                            (* int *)
| JFloat (token : string)                 (* float, held as the text json.dumps prints for it *)
| JStr (s : string)                       (* str *)
| JList (l : list json)                   (* list *)
| JDict (d : list (string * json)).       (* dict, insertion order *)

Definition pydict := list (string * json).

(** [v is None] *)
Definition is_None (v : json) : bool :=
  match v with JNull => true | _ => false end.

(** Truth value of an object, as [if selector:] tests it. *)
Definition truthy (v : json) : bool :=
  match v with
  | JNull => false
  | JBool b => b
  | JInt z => negb (z =? 0)
  | JFloat t => negb (String.eqb t "0.0" || String.eqb t "-0.0")
  | JStr s => negb (String.eqb s "")
  | JList l => match l with [] => false | _ => true end
  | JDict d => match d with [] => false | _ => true end
  end.

Module Dict.

(** [d.get(k)]: the value stored under [k], if any. *)
Fixpoint get (d : pydict) (k : string) : option json :=
  match d with
  | [] => None
  | (k', v) :: rest => if String.eqb k' k then Some v else get rest k
  end.

(** [d.get(k, default)] *)
Definition get_default (d : pydict) (k : string) (default : json) : json :=
  match get d k with Some v => v | None => default end.

(** [d[k] = v]: overwrite in place when the key exists, append otherwise. *)
Fixpoint set (d : pydict) (k : string) (v : json) : pydict :=
  match d with
  | [] => [(k, v)]
  | (k', v') :: rest =>
      if String.eqb k' k then (k', v) :: rest else (k', v') :: set rest k v
  end.

(** [list(d.keys())] *)
Definition keys (d : pydict) : list string := map fst d.

(** A Python dict holds each key once. *)
Definition wf (d : pydict) : Prop := NoDup (keys d).

End Dict.

(* ================================================================== *)
(** ** [json.dumps(obj, indent=..., ensure_ascii=...)] *)

Module JsonDumps.

Definition dquote : ascii := "034"%char.

Definition hex_digit (n : N) : ascii :=
  match n with
  | 0%N => "0" | 1%N => "1" | 2%N => "2" | 3%N => "3" | 4%N => "4"
  | 5%N => "5" | 6%N => "6" | 7%N => "7" | 8%N => "8" | 9%N => "9"
  | 10%N => "a" | 11%N => "b" | 12%N => "c" | 13%N => "d" | 14%N => "e"
  | _ => "f"
  end%char.

(** ['\\u{0:04x}'.format(n)] *)
Definition u_escape (n : N) : string :=
  String "\" (String "u"
    (String (hex_digit (N.land (N.shiftr n 12) 15))
    (String (hex_digit (N.land (N.shiftr n 8) 15))
    (String (hex_digit (N.land (N.shiftr n 4) 15))
    (String (hex_digit (N.land n 15)) ""))))).

(** Code points of a UTF-8 byte sequence, each with the bytes that
    encode it. [pending] continuation bytes are still expected for the
    code point whose high bits are [acc] and whose bytes so far are [raw]. *)
Fixpoint code_points (pending : nat) (acc : N) (raw : string) (s : string)
  : list (N * string) :=
  match s with
  | EmptyString => []
  | String c rest =>
      let b := N_of_ascii c in
      match pending with
      | O =>
          if (b <? 128)%N then (b, String c "") :: code_points 0 0 "" rest
          else if (b <? 224)%N then code_points 1 (N.land b 31) (String c "") rest
          else if (b <? 240)%N then code_points 2 (N.land b 15) (String c "") rest
          else code_points 3 (N.land b 7) (String c "") rest
      | S O =>
          (acc * 64 + N.land b 63, raw ++ String c "")%N
            :: code_points 0 0 "" rest
      | S p =>
          code_points p (acc * 64 + N.land b 63)%N (raw ++ String c "") rest
      end
  end.

(** One character of a string literal ([ESCAPE_DCT], and for
    [ensure_ascii] the [\uXXXX] forms with surrogate pairs above the
    basic plane). *)
Definition escape_char (ensure_ascii : bool) (cp : N * string) : string :=
  let '(n, raw) := cp in
  if (n =? 34)%N then String "\" (String dquote "")
  else if (n =? 92)%N then String "\" (String "\" "")
  else if (n =? 10)%N then String "\" (String "n" "")
  else if (n =? 13)%N then String "\" (String "r" "")
  else if (n =? 9)%N then String "\" (String "t" "")
  else if (n =? 12)%N then String "\" (String "f" "")
  else if (n =? 8)%N then String "\" (String "b" "")
  else if (n <? 32)%N then u_escape n
  else if negb ensure_ascii then raw
  else if (n <? 127)%N then raw
  else if (n <? 65536)%N then u_escape n
  else
    let m := (n - 65536)%N in
    u_escape (N.lor 55296 (N.land (N.shiftr m 10) 1023))
      ++ u_escape (N.lor 56320 (N.land m 1023)).

(** [encode_basestring] / [encode_basestring_ascii] *)
Definition encode_string (ensure_ascii : bool) (s : string) : string :=
  String dquote
    (String.concat "" (map (escape_char ensure_ascii) (code_points 0 0 "" s)))
    ++ String dquote "".

Definition string_of_Z (z : Z) : string := NilZero.string_of_int (Z.to_int z).

Fixpoint spaces (n : nat) : string :=
  match n with O => "" | S n' => String " " (spaces n') end.

Definition newline_indent (indent level : nat) : string :=
  String (ascii_of_nat 10) (spaces (indent * level)).

(** [_iterencode] at nesting depth [level]; with an indent the item
    separator is a comma followed by a new line and the key separator is
    a colon followed by a space. *)
Fixpoint encode (ensure_ascii : bool) (indent level : nat) (v : json) : string :=
  match v with
  | JNull => "null"
  | JBool true => "true"
  | JBool false => "false"
  | JInt z => string_of_Z z
  | JFloat t => t
  | JStr s => encode_string ensure_ascii s
  | JList [] => "[]"
  | JList l =>
      "[" ++ newline_indent indent (S level)
        ++ String.concat ("," ++ newline_indent indent (S level))
             (map (encode ensure_ascii indent (S level)) l)
        ++ newline_indent indent level ++ "]"
  | JDict [] => "{}"
  | JDict d =>
      "{" ++ newline_indent indent (S level)
        ++ String.concat ("," ++ newline_indent indent (S level))
             (map (fun kv => encode_string ensure_ascii (fst kv) ++ ": "
                               ++ encode ensure_ascii indent (S level) (snd kv)) d)
        ++ newline_indent indent level ++ "}"
  end.

End JsonDumps.

(** [json.dumps(obj, indent=indent, ensure_ascii=ensure_ascii)]; the
    default of [ensure_ascii] is [True]. *)
Definition json_dumps (obj : json) (indent : nat) (ensure_ascii : bool) : string :=
  JsonDumps.encode ensure_ascii indent 0 obj.

(* ================================================================== *)
(** ** Exceptions *)

(** An instance of [Exception]: whether it is an [aiohttp.ClientError]
    (the only class the code tells apart), the name of its class and its
    text. Signals that are not instances of [Exception] (task
    cancellation, interpreter exit) are no behaviour of the backend and
    have no value here. *)
Record py_exception : Type := mkException {
  is_ClientError : bool;      (* isinstance(e, aiohttp.ClientError) *)
  type_name : string;         (* type(e).__name__ *)
  message : string            (* str(e) *)
}.

Definition ValueError (msg : string) : py_exception :=
  mkException false "ValueError" msg.

Definition TypeError (msg : string) : py_exception :=
  mkException false "TypeError" msg.

(** [KeyError(key)], raised by [d[key]]; its text is [repr(key)], which for
    the keys the dispatcher indexes with (plain identifiers) is the key
    between single quotes. *)
Definition KeyError (key : string) : py_exception :=
  mkException false "KeyError" ("'" ++ key ++ "'").

(** [aiohttp.ClientConnectorError], a subclass of [aiohttp.ClientError]:
    the connection could not be made (refused, host not found); the
    exception [test_network_error_handling] lets the request raise. *)
Definition ClientConnectorError (msg : string) : py_exception :=
  mkException true "ClientConnectorError" msg.

(** [asyncio.TimeoutError], what the request raises when the [total] of
    [ClientTimeout(total=30)], set in [_get_session], runs out: an
    [Exception] that is no [aiohttp.ClientError]; it has no text. *)
Definition TimeoutError : py_exception :=
  mkException false "TimeoutError" "".

(** How a call ends. *)
Inductive outcome (A : Type) : Type :=
| Return (a : A)
| Raise (e : py_exception).

Arguments Return {A} a.
Arguments Raise {A} e.

(** [d[k]] on a dict. *)
Definition getitem (d : pydict) (k : string) : outcome json :=
  match Dict.get d k with
  | Some v => Return v
  | None => Raise (KeyError k)
  end.

(** [obj[k] = v] with a string key, on whatever [obj] is. *)
Definition setitem (obj : json) (k : string) (v : json) : outcome json :=
  match obj with
  | JDict d => Return (JDict (Dict.set d k v))
  | JList _ => Raise (TypeError "list indices must be integers or slices, not str")
  | JNull => Raise (TypeError "'NoneType' object does not support item assignment")
  | JBool _ => Raise (TypeError "'bool' object does not support item assignment")
  | JInt _ => Raise (TypeError "'int' object does not support item assignment")
  | JFloat _ => Raise (TypeError "'float' object does not support item assignment")
  | JStr _ => Raise (TypeError "'str' object does not support item assignment")
  end.

(* ================================================================== *)
(** ** HTTP exchange with the automation backend *)

(** [session.request(method, url, json=data)] *)
Record http_request : Type := mkRequest {
  req_method : string;
  req_url : string;
  req_json : option json
}.

(** The response object: its status, its content type, and what awaiting
    [response.json()] and [response.text()] gives. *)
Record http_response : Type := mkResponse {
  status : Z;
  content_type : string;
  response_json : outcome json;
  response_text : outcome string
}.

(** The decoded body: [await response.json()] for the JSON content type,
    the text of the body under the key [content] for any other. *)
Definition decode_body (response : http_response) : outcome json :=
  if String.eqb (content_type response) "application/json"
  then response_json response
  else match response_text response with
       | Return text => Return (JDict [("content", JStr text)])
       | Raise e => Raise e
       end.

(** [aiohttp.ClientSession] *)
Record ClientSession : Type := mkSession { closed : bool }.

(** [class AndroidClient] *)
Record AndroidClient : Type := mkAndroidClient {
  host : string;
  port : Z;
  base_url : string;
  session : option ClientSession
}.

(** [AndroidClient.__init__] *)
Definition AndroidClient_init (host : string) (port : Z) : AndroidClient :=
  mkAndroidClient host port
    ("http://" ++ host ++ ":" ++ JsonDumps.string_of_Z port) None.

Section Backend.

(** The automation backend: from its state and a request, either a
    response or an exception raised by the transport, and its next state. *)
Variable W : Type.
Variable backend : W -> http_request -> outcome http_response * W.

(** What a handler runs against: the server object's fields, the
    backend, and the requests issued so far (oldest first). *)
Record state : Type := mkState {
  android_host : string;
  android_port : Z;
  android_client : AndroidClient;
  device : W;
  requests : list http_request
}.

Definition M (A : Type) : Type := state -> outcome A * state.

Definition ret {A} (a : A) : M A := fun st => (Return a, st).

Definition raise {A} (e : py_exception) : M A := fun st => (Raise e, st).

Definition bind {A B} (c : M A) (k : A -> M B) : M B :=
  fun st =>
    match c st with
    | (Return a, st') => k a st'
    | (Raise e, st') => (Raise e, st')
    end.

(** [try: body  except Exception as e: handler e] *)
Definition try_except {A} (body : M A) (handler : py_exception -> M A) : M A :=
  fun st =>
    match body st with
    | (Return a, st') => (Return a, st')
    | (Raise e, st') => handler e st'
    end.

Definition lift {A} (o : outcome A) : M A := fun st => (o, st).

Definition set_session (s : option ClientSession) : M unit :=
  fun st =>
    let c := android_client st in
    (Return tt,
     mkState (android_host st) (android_port st)
       (mkAndroidClient (host c) (port c) (base_url c) s)
       (device st) (requests st)).

Definition self_client : M AndroidClient :=
  fun st => (Return (android_client st), st).

(** [async with session.request(method, url, json=data) as response] *)
Definition session_request (req : http_request) : M http_response :=
  fun st =>
    let (o, w') := backend (device st) req in
    (o, mkState (android_host st) (android_port st) (android_client st)
          w' (requests st ++ [req])).

End Backend.

Arguments ret {W A} a.
Arguments raise {W A} e.
Arguments bind {W A B} c k.
Arguments try_except {W A} body handler.
Arguments lift {W A} o.
Arguments self_client {W}.
Arguments set_session {W} s.

Declare Scope py_scope.
Delimit Scope py_scope with py.
Notation "x <- c ;; k" := (bind c (fun x => k))
  (at level 61, c at next level, right associativity) : py_scope.
Notation "c ;; k" := (bind c (fun _ => k))
  (at level 61, right associativity) : py_scope.
Open Scope py_scope.

(* ================================================================== *)
(** ** [android_client.py]: class [AndroidClient] *)

Section Client.

Variable W : Type.
Variable backend : W -> http_request -> outcome http_response * W.

(** [_get_session]: the session of the client, created when there is
    none or when the one there is closed. *)
Definition _get_session : M W ClientSession :=
  c <- self_client ;;
  match session c with
  | Some s =>
      if closed s
      then set_session (Some (mkSession false)) ;; ret (mkSession false)
      else ret s
  | None => set_session (Some (mkSession false)) ;; ret (mkSession false)
  end.

(** [close] *)
Definition close : M W unit :=
  c <- self_client ;;
  match session c with
  | Some s => if negb (closed s) then set_session (Some (mkSession true)) else ret tt
  | None => ret tt
  end.

Definition client_error_result (e : py_exception) : json :=
  JDict [("success", JBool false);
         ("error", JStr ("HTTP client error: " ++ message e));
         ("error_type", JStr "client_error")].

Definition unknown_error_result (e : py_exception) : json :=
  JDict [("success", JBool false);
         ("error", JStr ("Unexpected error: " ++ message e));
         ("error_type", JStr "unknown_error")].

(** The two [except] clauses of [_make_request]: [aiohttp.ClientError]
    first, any other [Exception] after it. *)
Definition on_exception (e : py_exception) : json :=
  if is_ClientError e then client_error_result e else unknown_error_result e.

(** The body of the [try] of [_make_request]. *)
Definition request_and_decode (method url : string) (data : option json) : M W json :=
  response <- session_request backend (mkRequest method url data) ;;
  result <- lift (decode_body response) ;;
  result <- (if 400 <=? status response
             then lift (setitem result "http_status" (JInt (status response)))
             else ret result) ;;
  ret result.

(** [_make_request(method, endpoint, data=None)] *)
Definition _make_request (method endpoint : string) (data : option json) : M W json :=
  c <- self_client ;;
  let url := base_url c ++ endpoint in
  _get_session ;;
  try_except
    (request_and_decode method url data)
    (fun e => ret (on_exception e)).

Definition health_check : M W json := _make_request "GET" "/health" None.

Definition get_ui_dump : M W json := _make_request "GET" "/ui/dump" None.

Definition get_ui_dump_xml : M W json := _make_request "GET" "/ui/dump/xml" None.

Definition click_element (selector : json) : M W json :=
  _make_request "POST" "/ui/click" (Some (JDict [("selector", selector)])).

Definition input_text (selector text clear_first : json) : M W json :=
  let data := JDict [("selector", selector);
                     ("text", text);
                     ("clear_first", clear_first)] in
  _make_request "POST" "/ui/input" (Some data).

(** [scroll(direction, steps=1, selector=None)]; [selector] is [JNull]
    when the caller leaves it out. *)
Definition scroll (direction steps selector : json) : M W json :=
  let data := [("direction", direction); ("steps", steps)] in
  let data := if truthy selector then Dict.set data "selector" selector else data in
  _make_request "POST" "/ui/scroll" (Some (JDict data)).

Definition wait_for_element (selector timeout condition : json) : M W json :=
  let data := JDict [("selector", selector);
                     ("timeout", timeout);
                     ("condition", condition)] in
  _make_request "POST" "/ui/wait" (Some data).

Definition press_back : M W json := _make_request "POST" "/device/back" None.

Definition press_home : M W json := _make_request "POST" "/device/home" None.

Definition press_recent : M W json := _make_request "POST" "/device/recent" None.

Definition get_device_info : M W json := _make_request "GET" "/device/info" None.

End Client.

(* ================================================================== *)
(** ** [server.py]: class [UIAutomatorMCPServer] *)

(** [mcp.types.TextContent], [mcp.types.Tool] and [mcp.types.Resource]:
    plain records of the fields the server fills in. *)
Record TextContent : Type := mkTextContent {
  type : string;
  text : string
}.

Record Tool : Type := mkTool {
  name : string;
  description : string;
  inputSchema : json
}.

Record Resource : Type := mkResource {
  uri : string;
  resource_name : string;
  resource_description : string;
  mimeType : string
}.

(** [UIAutomatorMCPServer.__init__(android_host, android_port)], started
    against a backend in state [w]. *)
Definition UIAutomatorMCPServer_init {W : Type}
    (android_host : string) (android_port : Z) (w : W) : state W :=
  mkState android_host android_port
    (AndroidClient_init android_host android_port) w [].

(** The schema of a tool without parameters. *)
Definition no_parameters : json :=
  JDict [("type", JStr "object"); ("properties", JDict []); ("required", JList [])].

Definition string_property (descr : string) : json :=
  JDict [("type", JStr "string"); ("description", JStr descr)].

Definition typed (t : string) : json := JDict [("type", JStr t)].

Definition required (k : string) : json := JDict [("required", JList [JStr k])].

(** The [selector] property of [input_text] and [wait_for_element]. *)
Definition selector_property (descr : string) : json :=
  JDict [("type", JStr "object");
         ("description", JStr descr);
         ("properties",
          JDict [("resource_id", typed "string");
                 ("text", typed "string");
                 ("text_contains", typed "string");
                 ("class_name", typed "string");
                 ("content_desc", typed "string")])].

(** [handle_list_tools] *)
Definition handle_list_tools : list Tool :=
  [ mkTool "get_ui_dump"
      "Get the current UI hierarchy/tree from Android device"
      no_parameters;
    mkTool "click_element"
      "Click an element on the Android screen"
      (JDict
         [("type", JStr "object");
          ("properties",
           JDict
             [("resource_id",
               string_property "Android resource ID (e.g., 'com.example:id/button')");
              ("text", string_property "Exact text content to match");
              ("text_contains", string_property "Partial text content to match");
              ("class_name",
               string_property "UI element class name (e.g., 'android.widget.Button')");
              ("content_desc", string_property "Content description for accessibility");
              ("bounds",
               JDict [("type", JStr "object");
                      ("description", JStr "Element bounds coordinates");
                      ("properties",
                       JDict [("left", typed "integer");
                              ("top", typed "integer");
                              ("right", typed "integer");
                              ("bottom", typed "integer")])])]);
          ("anyOf",
           JList [required "resource_id"; required "text"; required "text_contains";
                  required "class_name"; required "content_desc"; required "bounds"])]);
    mkTool "input_text"
      "Input text into a text field on Android device"
      (JDict
         [("type", JStr "object");
          ("properties",
           JDict
             [("text", string_property "Text to input");
              ("clear_first",
               JDict [("type", JStr "boolean");
                      ("description", JStr "Whether to clear existing text first");
                      ("default", JBool true)]);
              ("selector", selector_property "Element selector for the input field")]);
          ("required", JList [JStr "text"; JStr "selector"])]);
    mkTool "scroll_screen"
      "Scroll the screen in a specified direction"
      (JDict
         [("type", JStr "object");
          ("properties",
           JDict
             [("direction",
               JDict [("type", JStr "string");
                      ("enum", JList [JStr "up"; JStr "down"; JStr "left"; JStr "right"]);
                      ("description", JStr "Direction to scroll")]);
              ("steps",
               JDict [("type", JStr "integer");
                      ("description", JStr "Number of scroll steps");
                      ("default", JInt 1);
                      ("minimum", JInt 1);
                      ("maximum", JInt 10)])]);
          ("required", JList [JStr "direction"])]);
    mkTool "wait_for_element"
      "Wait for an element to appear or disappear"
      (JDict
         [("type", JStr "object");
          ("properties",
           JDict
             [("timeout",
               JDict [("type", JStr "integer");
                      ("description", JStr "Timeout in milliseconds");
                      ("default", JInt 5000);
                      ("minimum", JInt 1000);
                      ("maximum", JInt 30000)]);
              ("condition",
               JDict [("type", JStr "string");
                      ("enum", JList [JStr "visible"; JStr "gone"; JStr "clickable"]);
                      ("description", JStr "Wait condition");
                      ("default", JStr "visible")]);
              ("selector", selector_property "Element selector to wait for")]);
          ("required", JList [JStr "selector"])]);
    mkTool "press_back" "Press the Android back button" no_parameters;
    mkTool "press_home" "Press the Android home button" no_parameters;
    mkTool "press_recent" "Press the Android recent apps button" no_parameters;
    mkTool "get_device_info" "Get Android device information" no_parameters ].

(** [handle_list_resources] *)
Definition handle_list_resources : list Resource :=
  [ mkResource "android://ui/current" "Current UI State"
      "Current Android UI hierarchy and element information" "application/json";
    mkResource "android://device/info" "Device Information"
      "Android device specifications and status" "application/json" ].

(** The six selector criteria that the schema of [click_element] declares. *)
Definition selector_keys : list string :=
  ["resource_id"; "text"; "text_contains"; "class_name"; "content_desc"; "bounds"].

Section Server.

Variable W : Type.
Variable backend : W -> http_request -> outcome http_response * W.

(** The result envelope the [except] clause of [handle_call_tool] builds. *)
Definition error_envelope (e : py_exception) : json :=
  JDict [("success", JBool false);
         ("error", JStr (message e));
         ("error_type", JStr (type_name e))].

(** The body of the [try] of [handle_call_tool]. *)
Definition call_tool_body (name : string) (arguments : pydict)
  : M W (list TextContent) :=
  if String.eqb name "get_ui_dump" then
    result <- get_ui_dump backend ;;
    ret [mkTextContent "text" (json_dumps result 2 false)]
  else if String.eqb name "click_element" then
    let selector := filter (fun kv => negb (is_None (snd kv))) arguments in
    result <- click_element backend (JDict selector) ;;
    ret [mkTextContent "text" (json_dumps result 2 true)]
  else if String.eqb name "input_text" then
    text <- lift (getitem arguments "text") ;;
    selector <- lift (getitem arguments "selector") ;;
    let clear_first := Dict.get_default arguments "clear_first" (JBool true) in
    result <- input_text backend selector text clear_first ;;
    ret [mkTextContent "text" (json_dumps result 2 true)]
  else if String.eqb name "scroll_screen" then
    direction <- lift (getitem arguments "direction") ;;
    let steps := Dict.get_default arguments "steps" (JInt 1) in
    result <- scroll backend direction steps JNull ;;
    ret [mkTextContent "text" (json_dumps result 2 true)]
  else if String.eqb name "wait_for_element" then
    selector <- lift (getitem arguments "selector") ;;
    let timeout := Dict.get_default arguments "timeout" (JInt 5000) in
    let condition := Dict.get_default arguments "condition" (JStr "visible") in
    result <- wait_for_element backend selector timeout condition ;;
    ret [mkTextContent "text" (json_dumps result 2 true)]
  else if String.eqb name "press_back" then
    result <- press_back backend ;;
    ret [mkTextContent "text" (json_dumps result 2 true)]
  else if String.eqb name "press_home" then
    result <- press_home backend ;;
    ret [mkTextContent "text" (json_dumps result 2 true)]
  else if String.eqb name "press_recent" then
    result <- press_recent backend ;;
    ret [mkTextContent "text" (json_dumps result 2 true)]
  else if String.eqb name "get_device_info" then
    result <- get_device_info backend ;;
    ret [mkTextContent "text" (json_dumps result 2 true)]
  else
    raise (ValueError ("Unknown tool: " ++ name)).

(** [handle_call_tool(name, arguments)] *)
Definition handle_call_tool (name : string) (arguments : pydict)
  : M W (list TextContent) :=
  try_except
    (call_tool_body name arguments)
    (fun e => ret [mkTextContent "text" (json_dumps (error_envelope e) 2 true)]).

(** [handle_read_resource(uri)], on the text [str(uri)] of the identifier. *)
Definition handle_read_resource (uri : string) : M W string :=
  if String.eqb uri "android://ui/current" then
    result <- get_ui_dump backend ;;
    ret (json_dumps result 2 false)
  else if String.eqb uri "android://device/info" then
    result <- get_device_info backend ;;
    ret (json_dumps result 2 true)
  else
    raise (ValueError ("Unknown resource: " ++ uri)).

End Server.

(* ================================================================== *)
(** ** Simulated backends, after the mocks of [tests/test_android_client.py] *)

Module Mock.

(** A backend without state that answers every request alike. *)
Definition always (o : outcome http_response)
  : unit -> http_request -> outcome http_response * unit :=
  fun w _ => (o, w).

(** [mock_response.status = status],
    [mock_response.content_type = 'application/json'],
    [mock_response.json.return_value = body] *)
Definition json_response (status : Z) (body : json) : http_response :=
  mkResponse status "application/json" (Return body)
    (Return (json_dumps body 2 true)).

Definition ok : unit -> http_request -> outcome http_response * unit :=
  always (Return (json_response 200 (JDict [("success", JBool true)]))).

(** [test_http_error_handling] *)
Definition internal_server_error : unit -> http_request -> outcome http_response * unit :=
  always (Return (json_response 500
            (JDict [("success", JBool false);
                    ("error", JStr "Internal server error")]))).

(** [mock_request.side_effect = aiohttp.ClientConnectorError(...)] *)
Definition unreachable : unit -> http_request -> outcome http_response * unit :=
  always (Raise (mkException true "ClientConnectorError"
                   "Cannot connect to host localhost:8080")).

(** A backend that does not answer within the 30 seconds. *)
Definition timed_out : unit -> http_request -> outcome http_response * unit :=
  always (Raise TimeoutError).

(** A server object as [main.py] builds it by default. *)
Definition server : state unit := UIAutomatorMCPServer_init "localhost" 8080 tt.

End Mock.

(* ================================================================== *)
(** ** Vocabulary of the statements *)

Section Vocabulary.

Variable W : Type.
Variable backend : W -> http_request -> outcome http_response * W.

(** The request [_make_request] issues from state [st]. *)
Definition issued (st : state W) (method endpoint : string) (data : option json)
  : http_request :=
  mkRequest method (base_url (android_client st) ++ endpoint) data.

(** The state once [req] has been exchanged: the session is open, the
    backend has moved on, the request is on record. *)
Definition after_request (st : state W) (req : http_request) : state W :=
  let c := android_client st in
  mkState (android_host st) (android_port st)
    (mkAndroidClient (host c) (port c) (base_url c) (Some (mkSession false)))
    (snd (backend (device st) req))
    (requests st ++ [req]).

(** What the caller gets for each way the exchange can end. *)
Definition normalized (o : outcome http_response) : json :=
  match o with
  | Raise e => on_exception e
  | Return response =>
      match decode_body response with
      | Raise e => on_exception e
      | Return body =>
          if 400 <=? status response then
            match setitem body "http_status" (JInt (status response)) with
            | Return r => r
            | Raise e => on_exception e
            end
          else body
      end
  end.

(** The operations of the client, as calls with their arguments. *)
Inductive client_call : Type :=
| call_health_check
| call_get_ui_dump
| call_get_ui_dump_xml
| call_click_element (selector : json)
| call_input_text (selector text clear_first : json)
| call_scroll (direction steps selector : json)
| call_wait_for_element (selector timeout condition : json)
| call_press_back
| call_press_home
| call_press_recent
| call_get_device_info.

Definition perform (c : client_call) : M W json :=
  match c with
  | call_health_check => health_check backend
  | call_get_ui_dump => get_ui_dump backend
  | call_get_ui_dump_xml => get_ui_dump_xml backend
  | call_click_element selector => click_element backend selector
  | call_input_text selector text clear_first =>
      input_text backend selector text clear_first
  | call_scroll direction steps selector => scroll backend direction steps selector
  | call_wait_for_element selector timeout condition =>
      wait_for_element backend selector timeout condition
  | call_press_back => press_back backend
  | call_press_home => press_home backend
  | call_press_recent => press_recent backend
  | call_get_device_info => get_device_info backend
  end.

End Vocabulary.

(** The failure object of the client for an exception of either class,
    written out. *)
Definition failure_object (e : py_exception) : json :=
  JDict [("success", JBool false);
         ("error",
          JStr ((if is_ClientError e then "HTTP client error: " else "Unexpected error: ")
                  ++ message e));
         ("error_type",
          JStr (if is_ClientError e then "client_error" else "unknown_error"))].

(** The declared input schema of a tool of the catalog. *)
Definition tool_schema (tool_name : string) : option json :=
  option_map inputSchema
    (find (fun t => String.eqb (name t) tool_name) handle_list_tools).

(** The value found by following [path] through nested dicts. *)
Fixpoint json_path (v : json) (path : list string) : option json :=
  match path with
  | [] => Some v
  | k :: rest =>
      match v with
      | JDict d =>
          match Dict.get d k with
          | Some v' => json_path v' rest
          | None => None
          end
      | _ => None
      end
  end.

(** Whether [sub] occurs in [s]. *)
Fixpoint contains (s sub : string) : bool :=
  String.prefix sub s
  || match s with
     | EmptyString => false
     | String _ rest => contains rest sub
     end.

(** The text of a JSON member [key: value] as [json.dumps] prints it with
    an indent. *)
Definition member_text (key value : string) : string :=
  json_dumps (JStr key) 2 true ++ ": " ++ json_dumps (JStr value) 2 true.

(* ================================================================== *)
(** ** Reading the catalog *)

(** The keys a schema lists under [required]. *)
Definition required_keys (schema : json) : list string :=
  match schema with
  | JDict d =>
      match Dict.get d "required" with
      | Some (JList l) =>
          flat_map (fun v => match v with JStr k => [k] | _ => [] end) l
      | _ => []
      end
  | _ => []
  end.

(** The first of [keys] that the dict [d] does not hold. *)
Definition first_missing (keys : list string) (d : pydict) : option string :=
  find (fun k => match Dict.get d k with Some _ => false | None => true end) keys.

(** The default a schema declares for the parameter [param]. *)
Definition declared_default (schema : json) (param : string) : option json :=
  json_path schema ["properties"; param; "default"].

(** Several tool calls, one after the other, on the same server. *)
Fixpoint call_tools {W : Type}
    (backend : W -> http_request -> outcome http_response * W)
    (calls : list (string * pydict)) (st : state W) : state W :=
  match calls with
  | [] => st
  | (tool_name, arguments) :: rest =>
      call_tools backend rest (snd (handle_call_tool backend tool_name arguments st))
  end.

(* ================================================================== *)
(** ** [tests/test_integration.py]: [_find_clickable_element] *)

Definition AttributeError (msg : string) : py_exception :=
  mkException false "AttributeError" msg.

(** [type(v).__name__] *)
Definition py_type_name (v : json) : string :=
  match v with
  | JNull => "NoneType"
  | JBool _ => "bool"
  | JInt _ => "int"
  | JFloat _ => "float"
  | JStr _ => "str"
  | JList _ => "list"
  | JDict _ => "dict"
  end.

(** What [for child in v] visits: the items of a list, the keys of a
    dict, the characters of a str; anything else is not iterable. *)
Definition py_iter (v : json) : outcome (list json) :=
  match v with
  | JList l => Return l
  | JDict d => Return (map (fun kv => JStr (fst kv)) d)
  | JStr s => Return (map (fun cp => JStr (snd cp)) (JsonDumps.code_points 0 0 "" s))
  | _ => Raise (TypeError ("'" ++ py_type_name v ++ "' object is not iterable"))
  end.

(** The test [element.get("clickable") and element.get("resource_id") and
    element.get("enabled", True)] on a dict. *)
Definition is_clickable_target (d : pydict) : bool :=
  truthy (Dict.get_default d "clickable" JNull)
  && truthy (Dict.get_default d "resource_id" JNull)
  && truthy (Dict.get_default d "enabled" (JBool true)).

(** The [for] loop of [_find_clickable_element]: the first truthy result
    of [search] over the children, [None] when there is none; an
    exception of [search] ends the loop. *)
Fixpoint first_found (search : json -> outcome json) (children : list json)
  : outcome json :=
  match children with
  | [] => Return JNull
  | child :: rest =>
      match search child with
      | Raise e => Raise e
      | Return result => if truthy result then Return result else first_found search rest
      end
  end.

(** [_find_clickable_element] with [levels] levels left to look at, that
    is [max_depth - current_depth + 1] when that is positive and none
    when [current_depth > max_depth]; each recursive call has one level
    less, as [current_depth + 1] has. *)
Fixpoint find_clickable_from (levels : nat) (element : json) : outcome json :=
  match levels with
  | O => Return JNull
  | S deeper =>
      match element with
      | JDict d =>
          if is_clickable_target d then Return element
          else
            match py_iter (Dict.get_default d "children" (JList [])) with
            | Raise e => Raise e
            | Return children => first_found (find_clickable_from deeper) children
            end
      | _ =>
          Raise (AttributeError
                   ("'" ++ py_type_name element ++ "' object has no attribute 'get'"))
      end
  end.

(** [_find_clickable_element(element, max_depth=3, current_depth=0)];
    [None] is [JNull]. *)
Definition _find_clickable_element (element : json) (max_depth current_depth : Z)
  : outcome json :=
  find_clickable_from (Z.to_nat (max_depth - current_depth + 1)) element.

(** The nodes of a tree that the search can reach: [element] itself with
    at least one level left, and the nodes reachable from what the [for]
    loop visits with one level less. *)
Inductive reachable : nat -> json -> json -> Prop :=
| reachable_here (levels : nat) (element : json) :
    reachable (S levels) element element
| reachable_child (levels : nat) (d : pydict) (children : list json)
    (child node : json) :
    py_iter (Dict.get_default d "children" (JList [])) = Return children ->
    In child children ->
    reachable levels child node ->
    reachable (S levels) (JDict d) node.

(** A UI tree as the backend documents it, down to [levels] levels: every
    node is a dict whose [children], when present, is a list of such
    nodes. *)
Fixpoint ui_tree (levels : nat) (element : json) : bool :=
  match levels with
  | O => true
  | S deeper =>
      match element with
      | JDict d =>
          match Dict.get_default d "children" (JList []) with
          | JList children => forallb (ui_tree deeper) children
          | _ => false
          end
      | _ => false
      end
  end.

(** Whether a node that passes the test lies within [levels] levels. *)
Fixpoint has_clickable_target (levels : nat) (element : json) : bool :=
  match levels with
  | O => false
  | S deeper =>
      match element with
      | JDict d =>
          is_clickable_target d
          || match Dict.get_default d "children" (JList []) with
             | JList children => existsb (has_clickable_target deeper) children
             | _ => false
             end
      | _ => false
      end
  end.

(* ================================================================== *)
(** ** [main.py]: [main] *)

Module Main.

(** What can end a statement of [main] early: an instance of [Exception],
    [KeyboardInterrupt], or the [SystemExit] that [sys.exit(code)] raises;
    the last two are no instances of [Exception]. *)
Inductive signal : Type :=
| ExceptionRaised (e : py_exception)
| KeyboardInterrupt
| SystemExit (code : Z).

Inductive ending (A : Type) : Type :=
| Done (a : A)
| Stopped (s : signal).

Arguments Done {A} a.
Arguments Stopped {A} s.

(** The namespace [parser.parse_args] returns. *)
Record Namespace : Type := mkNamespace {
  arg_android_host : string;
  arg_android_port : Z;
  arg_stdio : bool;
  arg_debug : bool
}.

(** What [main] does that can be seen from outside, in order. *)
Inductive event : Type :=
| set_level_debug                                   (* logging.getLogger().setLevel(DEBUG) *)
| log_debug (msg : string)
| log_info (msg : string)
| log_error (msg : string)
| construct_server (android_host : string) (android_port : Z)
| serve_stdio.

Section Environment.

(** [argparse], the constructor of the server with the protocol library
    behind it, and the stdio transport are taken as they come:
    [parse_args] on a list of arguments, [construct] for
    [UIAutomatorMCPServer(android_host=..., android_port=...)], [serve]
    for the [async with stdio_server()] block around [run_stdio]. *)
Variable parse_args : list string -> ending Namespace.
Variable construct : string -> Z -> ending unit.
Variable serve : string -> Z -> ending unit.

(** The body of the [try] of [main]. *)
Definition try_body (args : Namespace) : list event * ending unit :=
  let h := arg_android_host args in
  let p := arg_android_port args in
  let started :=
    [log_info "Initializing Android UI Automator MCP Server";
     log_info ("Android service: http://" ++ h ++ ":" ++ JsonDumps.string_of_Z p);
     construct_server h p] in
  match construct h p with
  | Stopped s => (started, Stopped s)
  | Done _ =>
      if arg_stdio args
      then ((started ++ [log_info "Starting MCP server with stdio transport...";
                         serve_stdio])%list,
            serve h p)
      else ((started ++ [log_error "Only stdio transport is currently supported"])%list,
            Stopped (SystemExit 1))
  end.

(** What the parser gives for [sys.argv = argv]: [main] parses
    [["--stdio"]] when the command line has no argument and
    [sys.argv[1:]] otherwise. *)
Definition parsed (argv : list string) : ending Namespace :=
  parse_args (if Nat.eqb (length argv) 1 then ["--stdio"] else tl argv).

(** [main()], with [sys.argv] as [argv]. *)
Definition main (argv : list string) : list event * ending unit :=
  match parsed argv with
  | Stopped s => ([], Stopped s)
  | Done args =>
      let debug_events :=
        if arg_debug args
        then [set_level_debug; log_debug "Debug logging enabled"]
        else [] in
      let (events, result) := try_body args in
      match result with
      | Stopped KeyboardInterrupt =>
          ((debug_events ++ events ++ [log_info "Server interrupted by user"])%list,
           Done tt)
      | Stopped (ExceptionRaised e) =>
          ((debug_events ++ events ++ [log_error ("Server error: " ++ message e)])%list,
           Stopped (SystemExit 1))
      | _ => ((debug_events ++ events)%list, result)
      end
  end.

End Environment.

End Main.

(* ================================================================== *)
(** ** The registration [@self.server.call_tool()] *)

(** Modelled from the spec: the check of the arguments of a call against
    the input schema the catalog declares for the tool, made by the
    protocol library (not under src/) before it runs the handler that
    [@self.server.call_tool()] registers; the spec has the constraints of
    the schemas enforced there and not in the handler (4.2, steps 2 and
    4; 8, property 3). [valid] is JSON Schema validation for the keywords
    the catalog uses ([type], [properties], [required], [anyOf], [enum],
    [minimum], [maximum]; [description] and [default] constrain nothing),
    with bounds that are numbers and types given by one name. *)
Module JsonSchema.

(** The value of a JSON number: [m * 10^e], an infinity, or not a number. *)
Inductive number : Type :=
| Finite (m e : Z)
| Infinite (negative : bool)
| NaN.

Definition digit_of (c : ascii) : option Z :=
  let n := Z.of_nat (nat_of_ascii c) in
  if (48 <=? n) && (n <=? 57) then Some (n - 48) else None.

(** The digits of a float as it is printed: the integer part ([phase] 0),
    the fraction (1), the exponent (2); [scale] counts the digits of the
    fraction. *)
Fixpoint scan (s : string) (phase : nat) (m scale : Z) (eneg : bool) (ex : Z)
  : option (Z * Z) :=
  match s with
  | EmptyString => Some (m, (if eneg then - ex else ex) - scale)
  | String c rest =>
      match digit_of c with
      | Some d =>
          match phase with
          | O => scan rest 0 (10 * m + d) scale eneg ex
          | S O => scan rest 1 (10 * m + d) (scale + 1) eneg ex
          | _ => scan rest 2 m scale eneg (10 * ex + d)
          end
      | None =>
          if Ascii.eqb c "." then
            match phase with O => scan rest 1 m scale eneg ex | _ => None end
          else if Ascii.eqb c "e" || Ascii.eqb c "E" then
            match phase with
            | O | S O => scan rest 2 m scale eneg ex
            | _ => None
            end
          else if Ascii.eqb c "+" then
            match phase with S (S O) => scan rest 3 m scale eneg ex | _ => None end
          else if Ascii.eqb c "-" then
            match phase with S (S O) => scan rest 3 m scale true ex | _ => None end
          else None
      end
  end.

(** The value of the text of a float ([JFloat]). *)
Definition parse_float (t : string) : number :=
  if String.eqb t "NaN" then NaN
  else if String.eqb t "Infinity" then Infinite false
  else if String.eqb t "-Infinity" then Infinite true
  else
    match t with
    | String "-" rest =>
        match scan rest 0 0 0 false 0 with
        | Some (m, e) => Finite (- m) e
        | None => NaN
        end
    | _ =>
        match scan t 0 0 0 false 0 with
        | Some (m, e) => Finite m e
        | None => NaN
        end
    end.

(** The number a value is, if it is one; a boolean is none. *)
Definition number_of (v : json) : option number :=
  match v with
  | JInt z => Some (Finite z 0)
  | JFloat t => Some (parse_float t)
  | _ => None
  end.

(** [x < y] *)
Definition number_ltb (x y : number) : bool :=
  match x, y with
  | Finite m1 e1, Finite m2 e2 =>
      let e := Z.min e1 e2 in
      m1 * 10 ^ (e1 - e) <? m2 * 10 ^ (e2 - e)
  | Finite _ _, Infinite negative => negb negative
  | Infinite negative, Finite _ _ => negative
  | Infinite n1, Infinite n2 => n1 && negb n2
  | _, _ => false
  end.

Definition number_eqb (x y : number) : bool :=
  match x, y with
  | Finite m1 e1, Finite m2 e2 =>
      let e := Z.min e1 e2 in
      m1 * 10 ^ (e1 - e) =? m2 * 10 ^ (e2 - e)
  | Infinite n1, Infinite n2 => Bool.eqb n1 n2
  | _, _ => false
  end.

(** Whether a number has no fraction. *)
Definition is_integral (x : number) : bool :=
  match x with
  | Finite m e => (0 <=? e) || (m mod 10 ^ (- e) =? 0)
  | _ => false
  end.

(** [instance < bound] for the keywords [minimum] and [maximum]: false
    when either side is no number. *)
Definition less_than (a b : json) : bool :=
  match number_of a, number_of b with
  | Some x, Some y => number_ltb x y
  | _, _ => false
  end.

(** Equality of two values as [enum] takes it: numbers by value, a
    boolean equal to no number, dicts whatever the order of their keys. *)
Fixpoint equal (a b : json) : bool :=
  match a, b with
  | JNull, JNull => true
  | JBool x, JBool y => Bool.eqb x y
  | JStr x, JStr y => String.eqb x y
  | JList xs, JList ys =>
      (fix each (xs ys : list json) : bool :=
         match xs, ys with
         | [], [] => true
         | x :: xs', y :: ys' => equal x y && each xs' ys'
         | _, _ => false
         end) xs ys
  | JDict xs, JDict ys =>
      Nat.eqb (length xs) (length ys)
      && (fix each (xs : list (string * json)) : bool :=
            match xs with
            | [] => true
            | (k, x) :: xs' =>
                match Dict.get ys k with
                | Some y => equal x y
                | None => false
                end && each xs'
            end) xs
  | _, _ =>
      match number_of a, number_of b with
      | Some x, Some y => number_eqb x y
      | _, _ => false
      end
  end.

(** The keyword [type] with the name [t]. *)
Definition has_type (t : string) (instance : json) : bool :=
  if String.eqb t "object" then match instance with JDict _ => true | _ => false end
  else if String.eqb t "array" then match instance with JList _ => true | _ => false end
  else if String.eqb t "string" then match instance with JStr _ => true | _ => false end
  else if String.eqb t "boolean" then match instance with JBool _ => true | _ => false end
  else if String.eqb t "null" then match instance with JNull => true | _ => false end
  else if String.eqb t "number" then
    match number_of instance with Some _ => true | None => false end
  else if String.eqb t "integer" then
    match number_of instance with Some x => is_integral x | None => false end
  else false.

(** The keyword [required]: applies to dicts only. *)
Definition has_required (keys : json) (instance : json) : bool :=
  match keys, instance with
  | JList ks, JDict members =>
      forallb (fun k => match k with
                        | JStr key =>
                            match Dict.get members key with
                            | Some _ => true
                            | None => false
                            end
                        | _ => true
                        end) ks
  | _, _ => true
  end.

(** Whether [instance] is valid against [schema]: every keyword of the
    schema holds. *)
Fixpoint valid (schema : json) (instance : json) : bool :=
  match schema with
  | JBool b => b
  | JDict keywords =>
      (fix every (ks : list (string * json)) : bool :=
         match ks with
         | [] => true
         | (keyword, value) :: rest =>
             (if String.eqb keyword "type" then
                match value with
                | JStr t => has_type t instance
                | _ => true
                end
              else if String.eqb keyword "required" then has_required value instance
              else if String.eqb keyword "enum" then
                match value with
                | JList members => existsb (fun member => equal member instance) members
                | _ => true
                end
              else if String.eqb keyword "minimum" then negb (less_than instance value)
              else if String.eqb keyword "maximum" then negb (less_than value instance)
              else if String.eqb keyword "properties" then
                match value, instance with
                | JDict properties, JDict members =>
                    (fix each (ps : list (string * json)) : bool :=
                       match ps with
                       | [] => true
                       | (property, subschema) :: ps' =>
                           match Dict.get members property with
                           | Some member => valid subschema member
                           | None => true
                           end && each ps'
                       end) properties
                | _, _ => true
                end
              else if String.eqb keyword "anyOf" then
                match value with
                | JList subschemas =>
                    (fix some (ss : list json) : bool :=
                       match ss with
                       | [] => false
                       | subschema :: ss' => valid subschema instance || some ss'
                       end) subschemas
                | _ => true
                end
              else true)
             && every rest
         end) keywords
  | _ => true
  end.

End JsonSchema.

(** What the caller of a tool gets from the registered handler. *)
Inductive CallToolResult : Type :=
| InputValidationError                       (* isError, the text of the validation error *)
| ErrorResult (error : string)               (* isError, [str(e)] of an exception of the handler *)
| Content (content : list TextContent).      (* the blocks the handler returned *)

Section Registration.

Variable W : Type.
Variable backend : W -> http_request -> outcome http_response * W.

(** Modelled from the spec: the handler as [@self.server.call_tool()]
    registers it with the protocol library (not under src/). The
    arguments of a tool that [handle_list_tools] lists are checked against
    its [inputSchema] first; a call that fails the check is answered with
    an input validation error and [handle_call_tool] is not run. A tool
    that is not listed is not checked. *)
Definition call_tool (tool_name : string) (arguments : pydict) : M W CallToolResult :=
  let run :=
    try_except
      (content <- handle_call_tool backend tool_name arguments ;; ret (Content content))
      (fun e => ret (ErrorResult (message e))) in
  match tool_schema tool_name with
  | Some schema =>
      if JsonSchema.valid schema (JDict arguments) then run
      else ret InputValidationError
  | None => run
  end.

End Registration.

(* ================================================================== *)
(** * Properties *)

(** ** Dictionaries *)

Module DictFacts.

Lemma get_set_same (d : pydict) (k : string) (v : json) :
  Dict.get (Dict.set d k v) k = Some v.
Proof.
  induction d as [|[k' v'] rest IH]; simpl.
  - now rewrite String.eqb_refl.
  - destruct (String.eqb k' k) eqn:E; simpl; rewrite E; auto.
Qed.

Lemma get_set_other (d : pydict) (k k' : string) (v : json) :
  k' <> k -> Dict.get (Dict.set d k v) k' = Dict.get d k'.
Proof.
  intros Hne. induction d as [|[k0 v0] rest IH]; simpl.
  - destruct (String.eqb_spec k k'); congruence.
  - destruct (String.eqb_spec k0 k) as [->|Hk]; simpl.
    + destruct (String.eqb_spec k k'); congruence.
    + now rewrite IH.
Qed.

Lemma get_In (d : pydict) (k : string) (v : json) :
  Dict.get d k = Some v -> In (k, v) d.
Proof.
  induction d as [|[k' v'] rest IH]; simpl; [discriminate|].
  destruct (String.eqb_spec k' k) as [->|Hk]; intros H.
  - left. congruence.
  - right. auto.
Qed.

End DictFacts.

(** ** The backend client *)

Section ClientFacts.

Variable W : Type.
Variable backend : W -> http_request -> outcome http_response * W.

Lemma _get_session_run (st : state W) :
  _get_session st =
    (Return (mkSession false),
     mkState (android_host st) (android_port st)
       (mkAndroidClient (host (android_client st)) (port (android_client st))
          (base_url (android_client st)) (Some (mkSession false)))
       (device st) (requests st)).
Proof.
  destruct st as [h p [ch cp cb [[[|]]|]] w rs]; reflexivity.
Qed.

Lemma _make_request_run (method endpoint : string) (data : option json)
    (st : state W) :
  _make_request backend method endpoint data st =
    (Return (normalized (fst (backend (device st) (issued st method endpoint data)))),
     after_request backend st (issued st method endpoint data)).
Proof.
  unfold _make_request, bind at 1 2. unfold self_client.
  rewrite _get_session_run.
  unfold try_except, request_and_decode, bind, session_request, issued,
    after_request, normalized, lift, ret; simpl.
  destruct (backend (device st) _) as [[response|e] w']; simpl; [|reflexivity].
  destruct (decode_body response) as [body|e]; simpl; [|reflexivity].
  destruct (400 <=? status response); simpl; [|reflexivity].
  destruct (setitem body _ _); reflexivity.
Qed.

End ClientFacts.

Section ClientTheorems.

Variable W : Type.
Variable backend : W -> http_request -> outcome http_response * W.

Lemma on_exception_failure_object (e : py_exception) :
  on_exception e = failure_object e.
Proof.
  unfold on_exception, failure_object, client_error_result, unknown_error_result.
  destruct (is_ClientError e); reflexivity.
Qed.

(** Every operation is one call of [_make_request]. *)
Lemma perform_is_request (c : client_call) :
  exists method endpoint data,
    perform backend c = _make_request backend method endpoint data.
Proof.
  destruct c; simpl;
    unfold health_check, get_ui_dump, get_ui_dump_xml, click_element,
      input_text, scroll, wait_for_element, press_back, press_home,
      press_recent, get_device_info;
    do 3 eexists; reflexivity.
Qed.

(** C2 (amended). Every operation of the backend client returns a JSON
    value and never raises, whatever the backend does. When the request,
    or the reading of the body, raises an [aiohttp.ClientError] (as a
    refused connection does: [ClientConnectorError]), the value is
    success false, the error text [HTTP client error: ] followed by the
    text of the exception, and error_type [client_error]. When it raises
    any other exception the value is success false, [Unexpected error: ]
    followed by its text, and error_type [unknown_error]; the
    [TimeoutError] of the 30 second limit is such an exception, so a
    timeout is reported as [unknown_error]. A response below status 400
    gives its decoded body; from status 400 on a dict gets [http_status]
    and any other body ends as an [unknown_error] object. *)
Theorem client_failures_by_exception_class (c : client_call) (st : state W) :
  exists (r : json) (req : http_request),
    perform backend c st = (Return r, after_request backend st req) /\
    (forall e,
        fst (backend (device st) req) = Raise e \/
        (exists response,
            fst (backend (device st) req) = Return response /\
            decode_body response = Raise e) ->
        r = if is_ClientError e
            then JDict [("success", JBool false);
                        ("error", JStr ("HTTP client error: " ++ message e));
                        ("error_type", JStr "client_error")]
            else JDict [("success", JBool false);
                        ("error", JStr ("Unexpected error: " ++ message e));
                        ("error_type", JStr "unknown_error")]) /\
    (forall msg,
        fst (backend (device st) req) = Raise (ClientConnectorError msg) ->
        r = JDict [("success", JBool false);
                   ("error", JStr ("HTTP client error: " ++ msg));
                   ("error_type", JStr "client_error")]) /\
    (fst (backend (device st) req) = Raise TimeoutError ->
     r = JDict [("success", JBool false);
                ("error", JStr "Unexpected error: ");
                ("error_type", JStr "unknown_error")]) /\
    (forall response body,
        fst (backend (device st) req) = Return response ->
        decode_body response = Return body ->
        if 400 <=? status response then
          match body with
          | JDict d => r = JDict (Dict.set d "http_status" (JInt (status response)))
          | _ =>
              exists msg,
                r = JDict [("success", JBool false);
                           ("error", JStr ("Unexpected error: " ++ msg));
                           ("error_type", JStr "unknown_error")]
          end
        else r = body).
Proof.
  destruct (perform_is_request c) as (method & endpoint & data & ->).
  exists (normalized (fst (backend (device st) (issued st method endpoint data)))),
    (issued st method endpoint data).
  split; [apply _make_request_run|].
  unfold normalized, on_exception, client_error_result, unknown_error_result.
  split; [|split; [|split; [|]]].
  - intros e [-> | (response & -> & ->)]; reflexivity.
  - intros msg ->. reflexivity.
  - intros ->. reflexivity.
  - intros response body -> ->.
    destruct (400 <=? status response); [|reflexivity].
    destruct body; simpl; try reflexivity; eexists; reflexivity.
Qed.

(** C3 (amended). When the response has status 400 or more and its
    decoded body is a dict (a JSON object, or the [content] wrapper of a
    body that is not JSON), the call returns that dict with
    [http_status] set to the status, whether or not the body had an
    [http_status] of its own; every other key keeps its value. *)
Theorem http_error_status_is_set (method endpoint : string) (data : option json)
    (st : state W) (response : http_response) (d : pydict) :
  fst (backend (device st) (issued st method endpoint data)) = Return response ->
  400 <= status response ->
  decode_body response = Return (JDict d) ->
  exists r,
    fst (_make_request backend method endpoint data st) = Return (JDict r) /\
    r = Dict.set d "http_status" (JInt (status response)) /\
    Dict.get r "http_status" = Some (JInt (status response)) /\
    (forall k, k <> "http_status" -> Dict.get r k = Dict.get d k).
Proof.
  intros Hresp Hstatus Hbody.
  exists (Dict.set d "http_status" (JInt (status response))).
  rewrite _make_request_run. simpl fst. unfold normalized.
  rewrite Hresp, Hbody.
  apply Z.leb_le in Hstatus. rewrite Hstatus. simpl.
  repeat split.
  - apply DictFacts.get_set_same.
  - intros k Hk. now apply DictFacts.get_set_other.
Qed.

End ClientTheorems.

(** [test_network_error_handling], for every operation: against a backend
    that cannot be reached the result is the [client_error] object. *)
Lemma unreachable_backend_gives_client_error (c : client_call) (st : state unit) :
  fst (perform Mock.unreachable c st) =
    Return (JDict [("success", JBool false);
                   ("error",
                    JStr "HTTP client error: Cannot connect to host localhost:8080");
                   ("error_type", JStr "client_error")]).
Proof.
  destruct (perform_is_request Mock.unreachable c) as (method & endpoint & data & ->).
  now rewrite _make_request_run.
Qed.

(** A body that is valid JSON but no dict, under an error status: the
    assignment of [http_status] raises [TypeError] inside the [try] and
    the caller gets the [unknown_error] object. *)
Example error_status_with_list_body :
  fst (health_check (Mock.always (Return (Mock.json_response 503 (JList []))))
         Mock.server) =
    Return (JDict [("success", JBool false);
                   ("error",
                    JStr "Unexpected error: list indices must be integers or slices, not str");
                   ("error_type", JStr "unknown_error")]).
Proof. reflexivity. Qed.

(** C2, as stated, fails for the timeout: a backend that does not
    answer within the 30 seconds makes the request raise [TimeoutError],
    a failure of the transport, and the operation reports it with
    error_type [unknown_error], not [client_error]. *)
Lemma timeout_is_reported_as_unknown_error :
  fst (Mock.timed_out (device Mock.server) (issued Mock.server "GET" "/health" None))
    = Raise TimeoutError /\
  is_ClientError TimeoutError = false /\
  fst (health_check Mock.timed_out Mock.server) =
    Return (JDict [("success", JBool false);
                   ("error", JStr "Unexpected error: ");
                   ("error_type", JStr "unknown_error")]) /\
  exists d : pydict,
    fst (health_check Mock.timed_out Mock.server) = Return (JDict d) /\
    Dict.get d "error_type" <> Some (JStr "client_error").
Proof.
  split; [reflexivity|]. split; [reflexivity|]. split; [reflexivity|].
  eexists. split; [reflexivity|]. vm_compute. discriminate.
Qed.

(** The run of [test_http_error_handling]: status 500 with a JSON body. *)
Lemma http_error_status_is_set_witness :
  let response :=
    Mock.json_response 500
      (JDict [("success", JBool false); ("error", JStr "Internal server error")]) in
  fst (Mock.internal_server_error (device Mock.server)
         (issued Mock.server "GET" "/health" None)) = Return response /\
  400 <= status response /\
  exists r,
    fst (_make_request Mock.internal_server_error "GET" "/health" None Mock.server)
      = Return (JDict r) /\
    r = Dict.set [("success", JBool false); ("error", JStr "Internal server error")]
          "http_status" (JInt (status response)) /\
    Dict.get r "http_status" = Some (JInt (status response)) /\
    (forall k, k <> "http_status" ->
       Dict.get r k
       = Dict.get [("success", JBool false); ("error", JStr "Internal server error")] k).
Proof.
  intro response.
  split; [reflexivity|].
  split; [simpl; lia|].
  apply (http_error_status_is_set Mock.internal_server_error "GET" "/health" None
           Mock.server (response := response)).
  - reflexivity.
  - simpl; lia.
  - reflexivity.
Defined.

(** C3, as stated, fails: a body that already has [http_status = 404],
    answered with status 500, comes back with [http_status = 500]. *)
Lemma http_status_of_body_is_replaced :
  let body := [("success", JBool false); ("http_status", JInt 404)] in
  let result :=
    fst (health_check (Mock.always (Return (Mock.json_response 500 (JDict body))))
           Mock.server) in
  Dict.get body "http_status" = Some (JInt 404) /\
  result = Return (JDict [("success", JBool false); ("http_status", JInt 500)]) /\
  result <> Return (JDict body).
Proof.
  cbv zeta. split; [reflexivity|]. split; [reflexivity|].
  vm_compute. discriminate.
Qed.

(** ** The dispatcher *)

Section ServerTheorems.

Variable W : Type.
Variable backend : W -> http_request -> outcome http_response * W.

(** A tool whose body is one client call that cannot raise: the handler
    returns the serialized result and leaves the state the call left. *)
Lemma bind_request_run (A : Type) (method endpoint : string) (data : option json)
    (k : json -> M W A) (st : state W) :
  bind (_make_request backend method endpoint data) k st =
    k (normalized (fst (backend (device st) (issued st method endpoint data))))
      (after_request backend st (issued st method endpoint data)).
Proof. unfold bind. now rewrite _make_request_run. Qed.

Ltac enter_tool :=
  unfold handle_call_tool, call_tool_body, try_except;
  cbn [String.eqb Ascii.eqb Bool.eqb andb];
  unfold getitem, get_ui_dump, click_element, input_text, scroll,
    wait_for_element.

Ltac finish_tool :=
  cbn [lift truthy]; unfold bind at 1; unfold lift;
  repeat (unfold bind at 1; cbn [ret]);
  rewrite ?bind_request_run; try rewrite _make_request_run; reflexivity.

Lemma get_ui_dump_tool_run (arguments : pydict) (st : state W) :
  let req := issued st "GET" "/ui/dump" None in
  handle_call_tool backend "get_ui_dump" arguments st =
    (Return [mkTextContent "text"
               (json_dumps (normalized (fst (backend (device st) req))) 2 false)],
     after_request backend st req).
Proof. intro req. enter_tool. rewrite bind_request_run. reflexivity. Qed.

Lemma click_element_run (arguments : pydict) (st : state W) :
  let selector := filter (fun kv => negb (is_None (snd kv))) arguments in
  let req := issued st "POST" "/ui/click" (Some (JDict [("selector", JDict selector)])) in
  handle_call_tool backend "click_element" arguments st =
    (Return [mkTextContent "text"
               (json_dumps (normalized (fst (backend (device st) req))) 2 true)],
     after_request backend st req).
Proof. intros selector req. enter_tool. rewrite bind_request_run. reflexivity. Qed.

Lemma input_text_run (arguments : pydict) (text selector : json) (st : state W) :
  Dict.get arguments "text" = Some text ->
  Dict.get arguments "selector" = Some selector ->
  let req := issued st "POST" "/ui/input"
               (Some (JDict [("selector", selector);
                             ("text", text);
                             ("clear_first",
                              Dict.get_default arguments "clear_first" (JBool true))])) in
  handle_call_tool backend "input_text" arguments st =
    (Return [mkTextContent "text"
               (json_dumps (normalized (fst (backend (device st) req))) 2 true)],
     after_request backend st req).
Proof. intros Ht Hs req. enter_tool. rewrite Ht, Hs. finish_tool. Qed.

Lemma scroll_screen_run (arguments : pydict) (direction : json) (st : state W) :
  Dict.get arguments "direction" = Some direction ->
  let req := issued st "POST" "/ui/scroll"
               (Some (JDict [("direction", direction);
                             ("steps", Dict.get_default arguments "steps" (JInt 1))])) in
  handle_call_tool backend "scroll_screen" arguments st =
    (Return [mkTextContent "text"
               (json_dumps (normalized (fst (backend (device st) req))) 2 true)],
     after_request backend st req).
Proof. intros Hd req. enter_tool. rewrite Hd. finish_tool. Qed.

Lemma wait_for_element_run (arguments : pydict) (selector : json) (st : state W) :
  Dict.get arguments "selector" = Some selector ->
  let req := issued st "POST" "/ui/wait"
               (Some (JDict [("selector", selector);
                             ("timeout", Dict.get_default arguments "timeout" (JInt 5000));
                             ("condition",
                              Dict.get_default arguments "condition" (JStr "visible"))])) in
  handle_call_tool backend "wait_for_element" arguments st =
    (Return [mkTextContent "text"
               (json_dumps (normalized (fst (backend (device st) req))) 2 true)],
     after_request backend st req).
Proof. intros Hs req. enter_tool. rewrite Hs. finish_tool. Qed.

(** A required argument that is missing: [arguments[key]] raises
    [KeyError], the handler answers with the envelope and nothing is
    sent. *)
Lemma scroll_screen_without_direction (arguments : pydict) (st : state W) :
  Dict.get arguments "direction" = None ->
  handle_call_tool backend "scroll_screen" arguments st =
    (Return [mkTextContent "text"
               (json_dumps (error_envelope (KeyError "direction")) 2 true)], st).
Proof. intros Hd. enter_tool. rewrite Hd. reflexivity. Qed.

End ServerTheorems.

Module FilterFacts.

Lemma is_None_false (v : json) : is_None v = false <-> v <> JNull.
Proof. destruct v; simpl; split; congruence. Qed.

Lemma get_not_key (d : pydict) (k : string) :
  ~ In k (Dict.keys d) -> Dict.get d k = None.
Proof.
  unfold Dict.keys. induction d as [|[k' v'] rest IH]; simpl; [reflexivity|].
  intros Hn. destruct (String.eqb_spec k' k) as [->|Hk]; [tauto|].
  apply IH. tauto.
Qed.

Lemma keys_filter_incl (p : string * json -> bool) (d : pydict) (k : string) :
  In k (Dict.keys (filter p d)) -> In k (Dict.keys d).
Proof.
  unfold Dict.keys. rewrite !in_map_iff.
  intros (kv & Hk & Hin). apply filter_In in Hin. exists kv. tauto.
Qed.

Lemma wf_filter (p : string * json -> bool) (d : pydict) :
  Dict.wf d -> Dict.wf (filter p d).
Proof.
  unfold Dict.wf. induction d as [|[k v] rest IH]; simpl; [auto|].
  intros Hwf. inversion Hwf as [|? ? Hnotin Hrest]; subst.
  destruct (p (k, v)); [|auto].
  simpl. constructor; [|auto].
  intros Hin. apply Hnotin. eapply keys_filter_incl. exact Hin.
Qed.

(** Looking a key up after a dict comprehension with a condition on the
    values. *)
Lemma get_filter (p : json -> bool) (d : pydict) (k : string) :
  Dict.wf d ->
  Dict.get (filter (fun kv => p (snd kv)) d) k =
    match Dict.get d k with
    | Some v => if p v then Some v else None
    | None => None
    end.
Proof.
  induction d as [|[k' v'] rest IH]; simpl; [reflexivity|].
  intros Hwf. inversion Hwf as [|? ? Hnotin Hrest]; subst.
  destruct (String.eqb_spec k' k) as [->|Hk].
  - destruct (p v') eqn:Hp; simpl.
    + now rewrite String.eqb_refl.
    + apply get_not_key. intros Hin. apply Hnotin.
      eapply keys_filter_incl. exact Hin.
  - destruct (p v') eqn:Hp; simpl.
    + destruct (String.eqb_spec k' k); [congruence|]. now apply IH.
    + now apply IH.
Qed.

End FilterFacts.

Section DispatcherClaims.

Variable W : Type.
Variable backend : W -> http_request -> outcome http_response * W.

(** C1. A [click_element] call whose arguments (a dict) hold a value
    other than [None] under one of the six selector keys sends one
    request, [POST /ui/click], whose body is [{"selector": s}] where the
    entries of [s] are exactly the entries of the arguments whose value
    is not [None]: same keys, same values, nothing added, nothing left
    out; [s] is not empty. *)
Theorem click_element_forwards_non_null (arguments : pydict) (st : state W) :
  Dict.wf arguments ->
  (exists k v, In k selector_keys /\ Dict.get arguments k = Some v /\ v <> JNull) ->
  exists selector : pydict,
    requests (snd (handle_call_tool backend "click_element" arguments st)) =
      (requests st ++
        [mkRequest "POST" (base_url (android_client st) ++ "/ui/click")
           (Some (JDict [("selector", JDict selector)]))])%list /\
    (forall k v,
        Dict.get selector k = Some v <-> Dict.get arguments k = Some v /\ v <> JNull) /\
    (forall k v, In (k, v) selector <-> In (k, v) arguments /\ v <> JNull) /\
    Dict.wf selector /\
    selector <> [].
Proof.
  intros Hwf (k0 & v0 & _ & Hget0 & Hv0).
  exists (filter (fun kv => negb (is_None (snd kv))) arguments).
  rewrite click_element_run. simpl snd.
  split; [reflexivity|].
  assert (Hin : forall k v,
             In (k, v) (filter (fun kv => negb (is_None (snd kv))) arguments)
             <-> In (k, v) arguments /\ v <> JNull).
  { intros k v. rewrite filter_In. simpl.
    rewrite negb_true_iff, FilterFacts.is_None_false. tauto. }
  split; [|split; [exact Hin|split]].
  - intros k v.
    rewrite (FilterFacts.get_filter (fun v => negb (is_None v)) k Hwf).
    destruct (Dict.get arguments k) as [v'|]; [|split; [discriminate|tauto]].
    destruct (is_None v') eqn:Hnone; simpl.
    + split; [discriminate|].
      intros [Heq Hne]. inversion Heq; subst. destruct v; simpl in *; congruence.
    + apply FilterFacts.is_None_false in Hnone.
      split; [intros Heq; inversion Heq; subst; tauto|tauto].
  - now apply FilterFacts.wf_filter.
  - intros Hnil.
    assert (Hin0 : In (k0, v0) (filter (fun kv => negb (is_None (snd kv))) arguments)).
    { apply Hin. split; [now apply DictFacts.get_In|assumption]. }
    rewrite Hnil in Hin0. exact Hin0.
Qed.

(** C7. An [input_text] call with its two required arguments sends
    [POST /ui/input] whose body always has [clear_first]: the value the
    caller gave, or [True] when the caller gave none. *)
Theorem input_text_sends_clear_first (arguments : pydict) (text selector : json)
    (st : state W) :
  Dict.get arguments "text" = Some text ->
  Dict.get arguments "selector" = Some selector ->
  exists data : pydict,
    requests (snd (handle_call_tool backend "input_text" arguments st)) =
      (requests st ++
        [mkRequest "POST" (base_url (android_client st) ++ "/ui/input")
           (Some (JDict data))])%list /\
    Dict.keys data = ["selector"; "text"; "clear_first"] /\
    Dict.get data "selector" = Some selector /\
    Dict.get data "text" = Some text /\
    Dict.get data "clear_first" =
      Some (match Dict.get arguments "clear_first" with
            | Some clear_first => clear_first
            | None => JBool true
            end).
Proof.
  intros Ht Hs.
  eexists. rewrite (input_text_run backend arguments st Ht Hs). simpl snd.
  split; [reflexivity|]. repeat split.
Qed.

(** C8. A [wait_for_element] call with its required [selector] sends
    [POST /ui/wait] with the [timeout] and the [condition] the caller
    gave; a missing [timeout] is sent as 5000 and a missing [condition]
    as ["visible"]. *)
Theorem wait_for_element_defaults (arguments : pydict) (selector : json)
    (st : state W) :
  Dict.get arguments "selector" = Some selector ->
  requests (snd (handle_call_tool backend "wait_for_element" arguments st)) =
    (requests st ++
      [mkRequest "POST" (base_url (android_client st) ++ "/ui/wait")
         (Some (JDict [("selector", selector);
                       ("timeout",
                        match Dict.get arguments "timeout" with
                        | Some timeout => timeout
                        | None => JInt 5000
                        end);
                       ("condition",
                        match Dict.get arguments "condition" with
                        | Some condition => condition
                        | None => JStr "visible"
                        end)]))])%list.
Proof.
  intros Hs. rewrite (wait_for_element_run backend arguments st Hs). reflexivity.
Qed.

(** C10. A [scroll_screen] call never sends a selector: with a
    [direction] it sends one request, [POST /ui/scroll], whose body has
    the keys [direction] and [steps] and no other, whatever else the
    arguments hold; without a [direction] nothing is sent. *)
Theorem scroll_screen_never_sends_selector (arguments : pydict) (st : state W) :
  match Dict.get arguments "direction" with
  | Some _ =>
      exists data : pydict,
        requests (snd (handle_call_tool backend "scroll_screen" arguments st)) =
          (requests st ++
            [mkRequest "POST" (base_url (android_client st) ++ "/ui/scroll")
               (Some (JDict data))])%list /\
        Dict.keys data = ["direction"; "steps"] /\
        Dict.get data "selector" = None
  | None =>
      requests (snd (handle_call_tool backend "scroll_screen" arguments st)) =
        requests st
  end.
Proof.
  destruct (Dict.get arguments "direction") as [direction|] eqn:Hd.
  - eexists. rewrite (scroll_screen_run backend arguments st Hd). simpl snd.
    split; [reflexivity|]. split; reflexivity.
  - now rewrite scroll_screen_without_direction.
Qed.

(** C9. From the same state of client and backend, reading
    [android://ui/current] and calling the tool [get_ui_dump] both run
    [get_ui_dump] of the client once, end in the same state, and give
    the same text: [json.dumps] of the result with indent 2 and
    [ensure_ascii=False]. *)
Theorem ui_resource_equals_get_ui_dump (arguments : pydict) (st : state W) :
  exists (result : json) (payload : string) (st' : state W),
    get_ui_dump backend st = (Return result, st') /\
    payload = json_dumps result 2 false /\
    handle_read_resource backend "android://ui/current" st = (Return payload, st') /\
    handle_call_tool backend "get_ui_dump" arguments st =
      (Return [mkTextContent "text" payload], st').
Proof.
  do 3 eexists.
  split; [unfold get_ui_dump; apply _make_request_run|].
  split; [reflexivity|].
  split; [|apply get_ui_dump_tool_run].
  unfold handle_read_resource. cbn [String.eqb Ascii.eqb Bool.eqb andb].
  unfold get_ui_dump. rewrite bind_request_run. reflexivity.
Qed.

End DispatcherClaims.

Section UnknownNames.

Variable W : Type.
Variable backend : W -> http_request -> outcome http_response * W.

Ltac not_this_tool H :=
  match goal with
  | |- context [String.eqb ?n ?lit] =>
      destruct (String.eqb_spec n lit) as [->|_];
      [exfalso; apply H; simpl; tauto|]
  end.

(** C4 (amended). A call under a name that is not one of the nine of
    the catalog returns one text block holding the failure envelope
    [success = False], [error = "Unknown tool: " + name] and
    [error_type = "ValueError"] (the name of the class of the exception
    the handler raised and caught); nothing is sent to the backend and
    nothing is raised to the caller. *)
Theorem unknown_tool_envelope (tool_name : string) (arguments : pydict)
    (st : state W) :
  ~ In tool_name (map name handle_list_tools) ->
  exists envelope : pydict,
    handle_call_tool backend tool_name arguments st =
      (Return [mkTextContent "text" (json_dumps (JDict envelope) 2 true)], st) /\
    Dict.get envelope "success" = Some (JBool false) /\
    Dict.get envelope "error" = Some (JStr ("Unknown tool: " ++ tool_name)) /\
    Dict.get envelope "error_type" = Some (JStr "ValueError").
Proof.
  intros Hnot.
  exists [("success", JBool false);
          ("error", JStr ("Unknown tool: " ++ tool_name));
          ("error_type", JStr "ValueError")].
  split; [|repeat split].
  unfold handle_call_tool, call_tool_body, try_except.
  do 9 not_this_tool Hnot.
  reflexivity.
Qed.

(** C5 (amended). Reading an identifier that is neither of the two
    listed resources raises [ValueError("Unknown resource: " + uri)] out
    of the handler: the handler has no [try], returns no envelope, sends
    nothing to the backend and leaves the state as it was. *)
Theorem unknown_resource_raises (identifier : string) (st : state W) :
  ~ In identifier (map uri handle_list_resources) ->
  handle_read_resource backend identifier st =
    (Raise (ValueError ("Unknown resource: " ++ identifier)), st).
Proof.
  intros Hnot. unfold handle_read_resource.
  do 2 not_this_tool Hnot.
  reflexivity.
Qed.

End UnknownNames.

(** ** Runs on the simulated backends *)

Lemma click_element_forwards_non_null_witness :
  let arguments := [("resource_id", JNull); ("text", JStr "OK"); ("class_name", JNull)] in
  Dict.wf arguments /\
  (exists k v, In k selector_keys /\ Dict.get arguments k = Some v /\ v <> JNull) /\
  exists selector : pydict,
    requests (snd (handle_call_tool Mock.ok "click_element" arguments Mock.server)) =
      (requests Mock.server ++
         [mkRequest "POST" (base_url (android_client Mock.server) ++ "/ui/click")
            (Some (JDict [("selector", JDict selector)]))])%list /\
    (forall k v,
        Dict.get selector k = Some v <-> Dict.get arguments k = Some v /\ v <> JNull) /\
    (forall k v, In (k, v) selector <-> In (k, v) arguments /\ v <> JNull) /\
    Dict.wf selector /\
    selector <> [].
Proof.
  intro arguments.
  assert (Hwf : Dict.wf arguments).
  { unfold Dict.wf, arguments. simpl.
    repeat constructor; simpl; intuition discriminate. }
  assert (Hex : exists k v,
             In k selector_keys /\ Dict.get arguments k = Some v /\ v <> JNull).
  { exists "text", (JStr "OK"). repeat split; [simpl; tauto|discriminate]. }
  split; [exact Hwf|]. split; [exact Hex|].
  exact (click_element_forwards_non_null Mock.ok Mock.server Hwf Hex).
Defined.

(** A [selector] among the arguments of [scroll_screen] is not passed on. *)
Example scroll_screen_ignores_selector_argument :
  requests (snd (handle_call_tool Mock.ok "scroll_screen"
                   [("direction", JStr "up");
                    ("selector", JDict [("resource_id", JStr "com.example:id/list")])]
                   Mock.server)) =
    [mkRequest "POST" "http://localhost:8080/ui/scroll"
       (Some (JDict [("direction", JStr "up"); ("steps", JInt 1)]))].
Proof. reflexivity. Qed.

Lemma input_text_sends_clear_first_witness :
  let arguments :=
    [("text", JStr "Hello World");
     ("selector", JDict [("resource_id", JStr "com.example:id/input")])] in
  Dict.get arguments "text" = Some (JStr "Hello World") /\
  Dict.get arguments "selector"
    = Some (JDict [("resource_id", JStr "com.example:id/input")]) /\
  exists data : pydict,
    requests (snd (handle_call_tool Mock.ok "input_text" arguments Mock.server)) =
      (requests Mock.server ++
         [mkRequest "POST" (base_url (android_client Mock.server) ++ "/ui/input")
            (Some (JDict data))])%list /\
    Dict.keys data = ["selector"; "text"; "clear_first"] /\
    Dict.get data "selector"
      = Some (JDict [("resource_id", JStr "com.example:id/input")]) /\
    Dict.get data "text" = Some (JStr "Hello World") /\
    Dict.get data "clear_first" = Some (JBool true).
Proof.
  intro arguments. split; [reflexivity|]. split; [reflexivity|].
  exact (input_text_sends_clear_first Mock.ok arguments Mock.server
           (text := JStr "Hello World")
           (selector := JDict [("resource_id", JStr "com.example:id/input")])
           eq_refl eq_refl).
Defined.

Lemma wait_for_element_defaults_witness :
  let arguments := [("selector", JDict [("text", JStr "Loading")])] in
  Dict.get arguments "selector" = Some (JDict [("text", JStr "Loading")]) /\
  requests (snd (handle_call_tool Mock.ok "wait_for_element" arguments Mock.server)) =
    (requests Mock.server ++
       [mkRequest "POST" (base_url (android_client Mock.server) ++ "/ui/wait")
          (Some (JDict [("selector", JDict [("text", JStr "Loading")]);
                        ("timeout", JInt 5000);
                        ("condition", JStr "visible")]))])%list.
Proof.
  intro arguments. split; [reflexivity|].
  exact (wait_for_element_defaults Mock.ok arguments Mock.server
           (selector := JDict [("text", JStr "Loading")]) eq_refl).
Defined.

Lemma unknown_tool_envelope_witness :
  ~ In "unknown_tool" (map name handle_list_tools) /\
  exists envelope : pydict,
    handle_call_tool Mock.ok "unknown_tool" [] Mock.server =
      (Return [mkTextContent "text" (json_dumps (JDict envelope) 2 true)], Mock.server) /\
    Dict.get envelope "success" = Some (JBool false) /\
    Dict.get envelope "error" = Some (JStr ("Unknown tool: " ++ "unknown_tool")) /\
    Dict.get envelope "error_type" = Some (JStr "ValueError").
Proof.
  assert (Hnot : ~ In "unknown_tool" (map name handle_list_tools)).
  { simpl. intuition discriminate. }
  split; [exact Hnot|].
  exact (unknown_tool_envelope Mock.ok [] Mock.server Hnot).
Defined.

(** C4, as stated, fails in its [error_type]: for the name
    [unknown_tool] the text returned has the member
    [error_type: ValueError] and no member [error_type: unknown tool]. *)
Lemma unknown_tool_error_type_is_ValueError :
  exists t : string,
    fst (handle_call_tool Mock.ok "unknown_tool" [] Mock.server)
      = Return [mkTextContent "text" t] /\
    t = json_dumps (JDict [("success", JBool false);
                           ("error", JStr "Unknown tool: unknown_tool");
                           ("error_type", JStr "ValueError")]) 2 true /\
    contains t (member_text "error_type" "ValueError") = true /\
    contains t (member_text "error_type" "unknown tool") = false.
Proof.
  eexists. split; [reflexivity|]. split; [reflexivity|].
  split; vm_compute; reflexivity.
Qed.

Lemma unknown_resource_raises_witness :
  ~ In "android://ui/previous" (map uri handle_list_resources) /\
  handle_read_resource Mock.ok "android://ui/previous" Mock.server =
    (Raise (ValueError ("Unknown resource: " ++ "android://ui/previous")), Mock.server).
Proof.
  assert (Hnot : ~ In "android://ui/previous" (map uri handle_list_resources)).
  { simpl. intuition discriminate. }
  split; [exact Hnot|].
  exact (unknown_resource_raises Mock.ok Mock.server Hnot).
Defined.

(** C5, as stated, fails: reading [android://ui/previous] ends with an
    exception leaving the handler, not with a returned result. *)
Lemma unknown_resource_leaves_handler :
  handle_read_resource Mock.ok "android://ui/previous" Mock.server =
    (Raise (mkException false "ValueError" "Unknown resource: android://ui/previous"),
     Mock.server) /\
  ~ exists (payload : string) (st' : state unit),
      handle_read_resource Mock.ok "android://ui/previous" Mock.server
        = (Return payload, st').
Proof.
  split; [reflexivity|].
  intros (payload & st' & H). vm_compute in H. discriminate.
Qed.

(* ================================================================== *)
(** * Further properties of the backend client *)

Section ClientBehaviour.

Variable W : Type.
Variable backend : W -> http_request -> outcome http_response * W.

(** A response below status 400 gives its decoded body as it is, dict or
    not; no [http_status] is added. *)
Theorem status_below_400_returns_body (method endpoint : string)
    (data : option json) (st : state W) (response : http_response) (body : json) :
  fst (backend (device st) (issued st method endpoint data)) = Return response ->
  status response < 400 ->
  decode_body response = Return body ->
  fst (_make_request backend method endpoint data st) = Return body.
Proof.
  intros Hresp Hstatus Hbody.
  rewrite _make_request_run. simpl fst. unfold normalized.
  rewrite Hresp, Hbody.
  destruct (400 <=? status response) eqn:Hle; [|reflexivity].
  apply Z.leb_le in Hle. lia.
Qed.

(** A response whose content type is not [application/json] is never
    parsed as JSON: its text comes back under the key [content], followed
    by [http_status] from status 400 on, whatever [response.json()] would
    have given. *)
Theorem text_body_is_wrapped (method endpoint : string) (data : option json)
    (st : state W) (response : http_response) (body_text : string) :
  fst (backend (device st) (issued st method endpoint data)) = Return response ->
  content_type response <> "application/json" ->
  response_text response = Return body_text ->
  fst (_make_request backend method endpoint data st) =
    Return (JDict (if 400 <=? status response
                   then [("content", JStr body_text);
                         ("http_status", JInt (status response))]
                   else [("content", JStr body_text)])).
Proof.
  intros Hresp Htype Htext.
  rewrite _make_request_run. simpl fst. unfold normalized, decode_body.
  rewrite Hresp.
  destruct (String.eqb_spec (content_type response) "application/json");
    [contradiction|].
  rewrite Htext.
  destruct (400 <=? status response); reflexivity.
Qed.

(** From status 400 on, a decoded body that is no dict (a JSON list,
    string, number, boolean or null) is lost: storing [http_status] in it
    raises [TypeError] inside the [try], and the caller gets the
    [unknown_error] object with the text of that error, with neither the
    body nor the status in it. *)
Theorem error_status_with_non_dict_body (method endpoint : string)
    (data : option json) (st : state W) (response : http_response) (body : json) :
  fst (backend (device st) (issued st method endpoint data)) = Return response ->
  400 <= status response ->
  decode_body response = Return body ->
  (forall d, body <> JDict d) ->
  exists msg : string,
    setitem body "http_status" (JInt (status response)) = Raise (TypeError msg) /\
    fst (_make_request backend method endpoint data st) =
      Return (JDict [("success", JBool false);
                     ("error", JStr ("Unexpected error: " ++ msg));
                     ("error_type", JStr "unknown_error")]).
Proof.
  intros Hresp Hstatus Hbody Hnd.
  rewrite _make_request_run. simpl fst. unfold normalized.
  rewrite Hresp, Hbody.
  apply Z.leb_le in Hstatus. rewrite Hstatus.
  destruct body; simpl; try (eexists; split; reflexivity).
  exfalso. eapply Hnd. reflexivity.
Qed.

Lemma prefix_app (s t : string) : String.prefix s (s ++ t) = true.
Proof.
  induction s as [|c s IH]; simpl.
  - now destruct t.
  - destruct (Ascii.ascii_dec c c); [exact IH|congruence].
Qed.

(** Every operation issues exactly one request and leaves the session
    open; the request goes to the base URL of the client, its method is
    GET or POST, and a GET carries no body. *)
Theorem client_requests_shape (c : client_call) (st : state W) :
  exists req : http_request,
    snd (perform backend c st) = after_request backend st req /\
    String.prefix (base_url (android_client st)) (req_url req) = true /\
    (req_method req = "GET" \/ req_method req = "POST") /\
    (req_method req = "GET" -> req_json req = None).
Proof.
  destruct c; simpl;
    unfold health_check, get_ui_dump, get_ui_dump_xml, click_element,
      input_text, scroll, wait_for_element, press_back, press_home,
      press_recent, get_device_info;
    rewrite _make_request_run; simpl snd;
    eexists; (split; [reflexivity|]);
    unfold issued; simpl req_url; simpl req_method; simpl req_json;
    (split; [apply prefix_app|]);
    (split; [tauto|]); intros H; try reflexivity; discriminate.
Qed.

(** [scroll] of the client puts a [selector] in the body exactly when the
    selector it is given is truthy: [None] and the empty dict are both
    left out, and the body then has [direction] and [steps] only. *)
Theorem scroll_selector_only_when_truthy (direction steps selector : json)
    (st : state W) :
  exists data : pydict,
    requests (snd (scroll backend direction steps selector st)) =
      (requests st ++
         [mkRequest "POST" (base_url (android_client st) ++ "/ui/scroll")
            (Some (JDict data))])%list /\
    Dict.get data "direction" = Some direction /\
    Dict.get data "steps" = Some steps /\
    Dict.get data "selector" = (if truthy selector then Some selector else None) /\
    Dict.keys data = (if truthy selector
                      then ["direction"; "steps"; "selector"]
                      else ["direction"; "steps"]).
Proof.
  unfold scroll. rewrite _make_request_run. simpl snd.
  eexists. split; [reflexivity|].
  destruct (truthy selector); repeat split.
Qed.

(** ** The session *)

(** [close] sends nothing and touches only the session, which afterwards
    is absent or closed; with no session, or a closed one, it changes
    nothing at all, so closing twice is closing once. *)
Theorem close_leaves_no_open_session (st : state W) :
  let st' := snd (close st) in
  fst (close st) = Return tt /\
  match session (android_client st') with
  | None => True
  | Some s => closed s = true
  end /\
  requests st' = requests st /\
  device st' = device st /\
  base_url (android_client st') = base_url (android_client st) /\
  (match session (android_client st) with
   | Some s => closed s = true
   | None => True
   end -> st' = st) /\
  close st' = (Return tt, st').
Proof.
  destruct st as [h p [ch cp cb [[[|]]|]] w rs]; cbv zeta;
    repeat split; auto.
  simpl. intros H; discriminate.
Qed.

(** Closing does not disable the client: the next operation opens a
    session again and gives the result and the state it would have given
    without the [close]. *)
Theorem perform_after_close (c : client_call) (st : state W) :
  perform backend c (snd (close st)) = perform backend c st.
Proof.
  destruct (perform_is_request backend c) as (method & endpoint & data & ->).
  rewrite !_make_request_run.
  destruct st as [h p [ch cp cb [[[|]]|]] w rs]; reflexivity.
Qed.

End ClientBehaviour.

(* ================================================================== *)
(** * Further properties of the dispatcher *)

Section DispatcherBehaviour.

Variable W : Type.
Variable backend : W -> http_request -> outcome http_response * W.

Ltac enter_tool :=
  unfold handle_call_tool, call_tool_body, try_except;
  cbn [String.eqb Ascii.eqb Bool.eqb andb];
  unfold getitem, get_ui_dump, click_element, input_text, scroll,
    wait_for_element, press_back, press_home, press_recent, get_device_info.

(** A tool without parameters: one request without a body, the arguments
    are not looked at. *)
Lemma press_back_run (arguments : pydict) (st : state W) :
  let req := issued st "POST" "/device/back" None in
  handle_call_tool backend "press_back" arguments st =
    (Return [mkTextContent "text"
               (json_dumps (normalized (fst (backend (device st) req))) 2 true)],
     after_request backend st req).
Proof. intro req. enter_tool. rewrite bind_request_run. reflexivity. Qed.

Lemma press_home_run (arguments : pydict) (st : state W) :
  let req := issued st "POST" "/device/home" None in
  handle_call_tool backend "press_home" arguments st =
    (Return [mkTextContent "text"
               (json_dumps (normalized (fst (backend (device st) req))) 2 true)],
     after_request backend st req).
Proof. intro req. enter_tool. rewrite bind_request_run. reflexivity. Qed.

Lemma press_recent_run (arguments : pydict) (st : state W) :
  let req := issued st "POST" "/device/recent" None in
  handle_call_tool backend "press_recent" arguments st =
    (Return [mkTextContent "text"
               (json_dumps (normalized (fst (backend (device st) req))) 2 true)],
     after_request backend st req).
Proof. intro req. enter_tool. rewrite bind_request_run. reflexivity. Qed.

Lemma get_device_info_tool_run (arguments : pydict) (st : state W) :
  let req := issued st "GET" "/device/info" None in
  handle_call_tool backend "get_device_info" arguments st =
    (Return [mkTextContent "text"
               (json_dumps (normalized (fst (backend (device st) req))) 2 true)],
     after_request backend st req).
Proof. intro req. enter_tool. rewrite bind_request_run. reflexivity. Qed.

(** A required argument that is missing: the [KeyError] of the first
    failing [arguments[key]] is answered with the envelope, nothing is
    sent. *)
Lemma input_text_without_text (arguments : pydict) (st : state W) :
  Dict.get arguments "text" = None ->
  handle_call_tool backend "input_text" arguments st =
    (Return [mkTextContent "text"
               (json_dumps (error_envelope (KeyError "text")) 2 true)], st).
Proof. intros H. enter_tool. rewrite H. reflexivity. Qed.

Lemma input_text_without_selector (arguments : pydict) (text : json) (st : state W) :
  Dict.get arguments "text" = Some text ->
  Dict.get arguments "selector" = None ->
  handle_call_tool backend "input_text" arguments st =
    (Return [mkTextContent "text"
               (json_dumps (error_envelope (KeyError "selector")) 2 true)], st).
Proof. intros Ht Hs. enter_tool. rewrite Ht, Hs. reflexivity. Qed.

Lemma wait_for_element_without_selector (arguments : pydict) (st : state W) :
  Dict.get arguments "selector" = None ->
  handle_call_tool backend "wait_for_element" arguments st =
    (Return [mkTextContent "text"
               (json_dumps (error_envelope (KeyError "selector")) 2 true)], st).
Proof. intros H. enter_tool. rewrite H. reflexivity. Qed.

(** Names outside the catalog, whatever the arguments. *)
Lemma unknown_tool_run (tool_name : string) (arguments : pydict) (st : state W) :
  ~ In tool_name (map name handle_list_tools) ->
  handle_call_tool backend tool_name arguments st =
    (Return [mkTextContent "text"
               (json_dumps (error_envelope (ValueError ("Unknown tool: " ++ tool_name)))
                  2 true)], st).
Proof.
  intros Hnot. unfold handle_call_tool, call_tool_body, try_except.
  repeat match goal with
         | |- context [String.eqb tool_name ?lit] =>
             destruct (String.eqb_spec tool_name lit) as [->|_];
             [exfalso; apply Hnot; simpl; tauto|]
         end.
  reflexivity.
Qed.

(** Every call ends in one of two ways: one request was exchanged and the
    text is the serialized result of the client, or nothing was sent and
    the text is the serialized envelope of an exception. *)
Lemma handle_call_tool_cases (tool_name : string) (arguments : pydict) (st : state W) :
  (exists req ensure_ascii,
      handle_call_tool backend tool_name arguments st =
        (Return [mkTextContent "text"
                   (json_dumps (normalized (fst (backend (device st) req))) 2 ensure_ascii)],
         after_request backend st req))
  \/ (exists e,
        handle_call_tool backend tool_name arguments st =
          (Return [mkTextContent "text" (json_dumps (error_envelope e) 2 true)], st)).
Proof.
  destruct (in_dec string_dec tool_name (map name handle_list_tools)) as [Hin|Hnot];
    [|right; eexists; now apply unknown_tool_run].
  simpl in Hin.
  repeat match type of Hin with
         | _ \/ _ => destruct Hin as [<-|Hin]
         end; try contradiction.
  - left. do 2 eexists. apply get_ui_dump_tool_run.
  - left. do 2 eexists. apply click_element_run.
  - destruct (Dict.get arguments "text") as [text|] eqn:Ht;
      [|right; eexists; now apply input_text_without_text].
    destruct (Dict.get arguments "selector") as [selector|] eqn:Hs;
      [|right; eexists; now apply (input_text_without_selector arguments st Ht)].
    left. do 2 eexists. exact (input_text_run backend arguments st Ht Hs).
  - destruct (Dict.get arguments "direction") as [direction|] eqn:Hd;
      [|right; eexists; now apply scroll_screen_without_direction].
    left. do 2 eexists. exact (scroll_screen_run backend arguments st Hd).
  - destruct (Dict.get arguments "selector") as [selector|] eqn:Hs;
      [|right; eexists; now apply wait_for_element_without_selector].
    left. do 2 eexists. exact (wait_for_element_run backend arguments st Hs).
  - left. do 2 eexists. apply press_back_run.
  - left. do 2 eexists. apply press_home_run.
  - left. do 2 eexists. apply press_recent_run.
  - left. do 2 eexists. apply get_device_info_tool_run.
Qed.

(** No tool call raises, whatever the name, the arguments, the state and
    the backend: the handler returns exactly one content block, of type
    [text], and has sent at most one request. *)
Theorem handle_call_tool_never_raises (tool_name : string) (arguments : pydict)
    (st : state W) :
  exists (t : string) (st' : state W),
    handle_call_tool backend tool_name arguments st
      = (Return [mkTextContent "text" t], st') /\
    (requests st' = requests st \/
     exists req, requests st' = (requests st ++ [req])%list).
Proof.
  destruct (handle_call_tool_cases tool_name arguments st)
    as [(req & ea & ->)|(e & ->)]; do 2 eexists; split; try reflexivity.
  - right. eexists. reflexivity.
  - now left.
Qed.

End DispatcherBehaviour.

Section CatalogAndDispatch.

Variable W : Type.
Variable backend : W -> http_request -> outcome http_response * W.

Ltac each_tool Hin :=
  simpl in Hin;
  repeat match type of Hin with
         | _ \/ _ => destruct Hin as [<-|Hin]
         end; try contradiction.

(** A call of a tool of the catalog that holds the required arguments
    exchanges one request and returns the serialized result of the
    client. *)
Lemma complete_call_run (tool : Tool) (arguments : pydict) (st : state W) :
  In tool handle_list_tools ->
  first_missing (required_keys (inputSchema tool)) arguments = None ->
  exists req ensure_ascii,
    handle_call_tool backend (name tool) arguments st =
      (Return [mkTextContent "text"
                 (json_dumps (normalized (fst (backend (device st) req))) 2 ensure_ascii)],
       after_request backend st req).
Proof.
  intros Hin Hrequired. each_tool Hin; cbn [name inputSchema] in *;
    unfold first_missing in Hrequired; cbn in Hrequired.
  - do 2 eexists. apply get_ui_dump_tool_run.
  - do 2 eexists. apply click_element_run.
  - destruct (Dict.get arguments "text") as [text|] eqn:Ht; [|discriminate].
    destruct (Dict.get arguments "selector") as [selector|] eqn:Hs; [|discriminate].
    do 2 eexists. exact (input_text_run backend arguments st Ht Hs).
  - destruct (Dict.get arguments "direction") as [direction|] eqn:Hd; [|discriminate].
    do 2 eexists. exact (scroll_screen_run backend arguments st Hd).
  - destruct (Dict.get arguments "selector") as [selector|] eqn:Hs; [|discriminate].
    do 2 eexists. exact (wait_for_element_run backend arguments st Hs).
  - do 2 eexists. apply press_back_run.
  - do 2 eexists. apply press_home_run.
  - do 2 eexists. apply press_recent_run.
  - do 2 eexists. apply get_device_info_tool_run.
Qed.

(** The catalog and the handler agree on the required arguments. For a
    tool of the catalog, when the arguments lack a key its schema lists
    under [required], the call sends nothing and answers with the
    [KeyError] envelope of the first such key; when they hold them all
    (for [click_element] and the tools without parameters there is none),
    exactly one request is exchanged. *)
Theorem required_arguments_decide_dispatch (tool : Tool) (arguments : pydict)
    (st : state W) :
  In tool handle_list_tools ->
  match first_missing (required_keys (inputSchema tool)) arguments with
  | Some key =>
      handle_call_tool backend (name tool) arguments st =
        (Return [mkTextContent "text"
                   (json_dumps (JDict [("success", JBool false);
                                       ("error", JStr ("'" ++ key ++ "'"));
                                       ("error_type", JStr "KeyError")]) 2 true)],
         st)
  | None =>
      exists req : http_request,
        snd (handle_call_tool backend (name tool) arguments st)
          = after_request backend st req
  end.
Proof.
  intros Hin. each_tool Hin; cbn [name inputSchema].
  - eexists. now rewrite get_ui_dump_tool_run.
  - eexists. now rewrite click_element_run.
  - unfold first_missing. cbn.
    destruct (Dict.get arguments "text") as [text|] eqn:Ht;
      [|now apply input_text_without_text].
    destruct (Dict.get arguments "selector") as [selector|] eqn:Hs;
      [|exact (input_text_without_selector backend arguments st Ht Hs)].
    eexists. now rewrite (input_text_run backend arguments st Ht Hs).
  - unfold first_missing. cbn.
    destruct (Dict.get arguments "direction") as [direction|] eqn:Hd;
      [|now apply scroll_screen_without_direction].
    eexists. now rewrite (scroll_screen_run backend arguments st Hd).
  - unfold first_missing. cbn.
    destruct (Dict.get arguments "selector") as [selector|] eqn:Hs;
      [|now apply wait_for_element_without_selector].
    eexists. now rewrite (wait_for_element_run backend arguments st Hs).
  - eexists. now rewrite press_back_run.
  - eexists. now rewrite press_home_run.
  - eexists. now rewrite press_recent_run.
  - eexists. now rewrite get_device_info_tool_run.
Qed.

(** A tool whose schema declares no parameters does not look at its
    arguments: the call behaves as the call with no argument, and its one
    request has no body. *)
Theorem tools_without_parameters_ignore_arguments (tool : Tool)
    (arguments : pydict) (st : state W) :
  In tool handle_list_tools ->
  inputSchema tool = no_parameters ->
  handle_call_tool backend (name tool) arguments st
    = handle_call_tool backend (name tool) [] st /\
  exists req : http_request,
    snd (handle_call_tool backend (name tool) arguments st)
      = after_request backend st req /\
    req_json req = None.
Proof.
  intros Hin Hschema. each_tool Hin; cbn [name inputSchema] in *;
    try discriminate Hschema.
  - rewrite !get_ui_dump_tool_run. split; [reflexivity|]. eexists. split; reflexivity.
  - rewrite !press_back_run. split; [reflexivity|]. eexists. split; reflexivity.
  - rewrite !press_home_run. split; [reflexivity|]. eexists. split; reflexivity.
  - rewrite !press_recent_run. split; [reflexivity|]. eexists. split; reflexivity.
  - rewrite !get_device_info_tool_run. split; [reflexivity|].
    eexists. split; reflexivity.
Qed.

#[local] Arguments String.eqb : simpl nomatch.

(** The defaults the catalog declares are the defaults the handler
    applies: whenever the schema of a tool declares a default for a
    parameter and a call holds the required arguments but not that
    parameter, the body of the request carries the declared default under
    the name of the parameter. *)
Theorem declared_defaults_are_applied (tool : Tool) (param : string)
    (default : json) (arguments : pydict) (st : state W) :
  In tool handle_list_tools ->
  declared_default (inputSchema tool) param = Some default ->
  first_missing (required_keys (inputSchema tool)) arguments = None ->
  Dict.get arguments param = None ->
  exists (req : http_request) (data : pydict),
    snd (handle_call_tool backend (name tool) arguments st)
      = after_request backend st req /\
    req_json req = Some (JDict data) /\
    Dict.get data param = Some default.
Proof.
  intros Hin Hdefault Hrequired Habsent.
  unfold declared_default in Hdefault.
  each_tool Hin; cbn [name inputSchema] in *;
    unfold no_parameters, string_property, selector_property, typed in Hdefault;
    cbn in Hdefault;
    repeat match type of Hdefault with
           | context [String.eqb ?lit param] =>
               destruct (String.eqb_spec lit param) as [<-|_];
               [vm_compute in Hdefault|cbn in Hdefault]
           end;
    try discriminate Hdefault;
    injection Hdefault as <-;
    unfold first_missing in Hrequired; cbn in Hrequired.
  - destruct (Dict.get arguments "text") as [text|] eqn:Ht; [|discriminate].
    destruct (Dict.get arguments "selector") as [selector|] eqn:Hs; [|discriminate].
    rewrite (input_text_run backend arguments st Ht Hs). simpl snd.
    do 2 eexists. split; [reflexivity|]. split; [reflexivity|].
    unfold Dict.get_default. rewrite Habsent. reflexivity.
  - destruct (Dict.get arguments "direction") as [direction|] eqn:Hd; [|discriminate].
    rewrite (scroll_screen_run backend arguments st Hd). simpl snd.
    do 2 eexists. split; [reflexivity|]. split; [reflexivity|].
    unfold Dict.get_default. rewrite Habsent. reflexivity.
  - destruct (Dict.get arguments "selector") as [selector|] eqn:Hs; [|discriminate].
    rewrite (wait_for_element_run backend arguments st Hs). simpl snd.
    do 2 eexists. split; [reflexivity|]. split; [reflexivity|].
    unfold Dict.get_default. rewrite Habsent. reflexivity.
  - destruct (Dict.get arguments "selector") as [selector|] eqn:Hs; [|discriminate].
    rewrite (wait_for_element_run backend arguments st Hs). simpl snd.
    do 2 eexists. split; [reflexivity|]. split; [reflexivity|].
    unfold Dict.get_default. rewrite Habsent. reflexivity.
Qed.

End CatalogAndDispatch.

Section CallsAndResources.

Variable W : Type.
Variable backend : W -> http_request -> outcome http_response * W.

Lemma after_request_config (st : state W) (req : http_request) :
  host (android_client (after_request backend st req)) = host (android_client st) /\
  port (android_client (after_request backend st req)) = port (android_client st) /\
  base_url (android_client (after_request backend st req))
    = base_url (android_client st).
Proof. repeat split. Qed.

(** Over any sequence of tool calls the record of requests only grows,
    by at most one request per call (a failed call is not tried again),
    and the host, port and base URL of the client stay what they were. *)
Theorem call_tools_sends_at_most_one_request_per_call
    (calls : list (string * pydict)) (st : state W) :
  exists new : list http_request,
    requests (call_tools backend calls st) = (requests st ++ new)%list /\
    (length new <= length calls)%nat /\
    host (android_client (call_tools backend calls st)) = host (android_client st) /\
    port (android_client (call_tools backend calls st)) = port (android_client st) /\
    base_url (android_client (call_tools backend calls st))
      = base_url (android_client st).
Proof.
  revert st. induction calls as [|[tool_name arguments] rest IH]; intros st; simpl.
  - exists []. rewrite app_nil_r. repeat split. auto.
  - destruct (IH (snd (handle_call_tool backend tool_name arguments st)))
      as (new & Hreq & Hlen & Hhost & Hport & Hurl).
    rewrite Hreq, Hhost, Hport, Hurl.
    destruct (handle_call_tool_cases backend tool_name arguments st)
      as [(req & ea & ->)|(e & ->)]; simpl snd.
    + exists (req :: new). simpl requests. rewrite <- app_assoc. simpl.
      repeat split. lia.
    + exists new. repeat split. lia.
Qed.

(** Reading [android://device/info] and calling the tool
    [get_device_info] from the same state give the same text, the result
    of [get_device_info] of the client printed with indent 2 and non-ASCII
    characters escaped, and end in the same state. *)
Theorem device_resource_equals_get_device_info (arguments : pydict) (st : state W) :
  exists (result : json) (payload : string) (st' : state W),
    get_device_info backend st = (Return result, st') /\
    payload = json_dumps result 2 true /\
    handle_read_resource backend "android://device/info" st = (Return payload, st') /\
    handle_call_tool backend "get_device_info" arguments st =
      (Return [mkTextContent "text" payload], st').
Proof.
  do 3 eexists.
  split; [unfold get_device_info; apply _make_request_run|].
  split; [reflexivity|].
  split; [|apply get_device_info_tool_run].
  unfold handle_read_resource. cbn [String.eqb Ascii.eqb Bool.eqb andb].
  unfold get_device_info. rewrite bind_request_run. reflexivity.
Qed.

(** A read returns a text exactly for the identifiers that
    [handle_list_resources] lists; it then has sent one GET without a
    body. For any other identifier it raises. *)
Theorem read_resource_returns_iff_listed (identifier : string) (st : state W) :
  (exists (payload : string) (st' : state W),
      handle_read_resource backend identifier st = (Return payload, st'))
  <-> In identifier (map uri handle_list_resources).
Proof.
  split.
  - intros (payload & st' & Hrun).
    destruct (in_dec string_dec identifier (map uri handle_list_resources))
      as [Hin|Hnot]; [exact Hin|exfalso].
    unfold handle_read_resource in Hrun.
    repeat match type of Hrun with
           | context [String.eqb identifier ?lit] =>
               destruct (String.eqb_spec identifier lit) as [->|_];
               [apply Hnot; simpl; tauto|]
           end.
    discriminate Hrun.
  - simpl. intros [<-|[<-|[]]];
      unfold handle_read_resource; cbn [String.eqb Ascii.eqb Bool.eqb andb];
      unfold get_ui_dump, get_device_info; rewrite bind_request_run;
      do 2 eexists; reflexivity.
Qed.

(** Nothing in the handler asks for a criterion: when every argument of a
    [click_element] call is [None], or there is no argument at all, the
    request is sent all the same, with the empty selector. *)
Theorem click_element_without_criteria (arguments : pydict) (st : state W) :
  (forall k v, In (k, v) arguments -> v = JNull) ->
  requests (snd (handle_call_tool backend "click_element" arguments st)) =
    (requests st ++
       [mkRequest "POST" (base_url (android_client st) ++ "/ui/click")
          (Some (JDict [("selector", JDict [])]))])%list.
Proof.
  intros Hnull. rewrite click_element_run. simpl snd.
  replace (filter (fun kv => negb (is_None (snd kv))) arguments) with (@nil (string * json));
    [reflexivity|].
  symmetry. induction arguments as [|[k v] rest IH]; [reflexivity|].
  simpl. rewrite (Hnull k v (or_introl eq_refl)). simpl.
  apply IH. intros k' v' Hin. apply (Hnull k' v'). now right.
Qed.

(** A failure of the transport is reported as data: when the backend
    raises [e] on whatever is requested from it, a call of a tool of the
    catalog with its required arguments returns, without raising, the text
    of the failure object of the client ([client_error] or
    [unknown_error]), not the envelope of the handler. *)
Theorem transport_failure_is_reported_as_data (tool : Tool) (arguments : pydict)
    (st : state W) (e : py_exception) :
  In tool handle_list_tools ->
  first_missing (required_keys (inputSchema tool)) arguments = None ->
  (forall req, fst (backend (device st) req) = Raise e) ->
  exists ensure_ascii : bool,
    fst (handle_call_tool backend (name tool) arguments st) =
      Return [mkTextContent "text" (json_dumps (failure_object e) 2 ensure_ascii)].
Proof.
  intros Hin Hrequired Hraise.
  destruct (complete_call_run backend arguments st Hin Hrequired)
    as (req & ea & Hrun).
  exists ea. rewrite Hrun. simpl fst.
  rewrite Hraise. simpl. now rewrite on_exception_failure_object.
Qed.

End CallsAndResources.

(* ================================================================== *)
(** * [_find_clickable_element] *)

Module FindClickable.

(** The function obeys the equation its source text reads as: nothing
    below [max_depth], the element itself when it passes the test, else
    the first find among its children one level down. *)
Lemma _find_clickable_element_eq (element : json) (max_depth current_depth : Z) :
  _find_clickable_element element max_depth current_depth =
    if max_depth <? current_depth then Return JNull
    else
      match element with
      | JDict d =>
          if is_clickable_target d then Return element
          else
            match py_iter (Dict.get_default d "children" (JList [])) with
            | Raise e => Raise e
            | Return children =>
                first_found
                  (fun child =>
                     _find_clickable_element child max_depth (current_depth + 1))
                  children
            end
      | _ =>
          Raise (AttributeError
                   ("'" ++ py_type_name element ++ "' object has no attribute 'get'"))
      end.
Proof.
  unfold _find_clickable_element.
  destruct (Z.ltb_spec max_depth current_depth) as [Hlt|Hge].
  - replace (Z.to_nat (max_depth - current_depth + 1)) with O by lia. reflexivity.
  - replace (Z.to_nat (max_depth - current_depth + 1))
      with (S (Z.to_nat (max_depth - (current_depth + 1) + 1))) by lia.
    reflexivity.
Qed.

Lemma first_found_result (search : json -> outcome json) (children : list json)
    (r : json) :
  first_found search children = Return r ->
  r = JNull \/
  exists child, In child children /\ search child = Return r /\ truthy r = true.
Proof.
  induction children as [|c rest IH]; simpl.
  - intros H. left. congruence.
  - destruct (search c) as [result|e] eqn:Hc; [|discriminate].
    destruct (truthy result) eqn:Ht.
    + intros H. inversion H; subst. right. exists c. auto.
    + intros H. destruct (IH H) as [->|(child & Hin & Hs & Htr)]; [now left|].
      right. exists child. auto.
Qed.

Lemma target_is_truthy (d : pydict) :
  is_clickable_target d = true -> truthy (JDict d) = true.
Proof.
  unfold is_clickable_target. destruct d; [discriminate|reflexivity].
Qed.

Lemma target_has_resource_id (d : pydict) :
  is_clickable_target d = true ->
  exists id, getitem d "resource_id" = Return id /\ truthy id = true.
Proof.
  unfold is_clickable_target, getitem, Dict.get_default.
  intros H. apply andb_true_iff in H. destruct H as [H _].
  apply andb_true_iff in H. destruct H as [_ H].
  destruct (Dict.get d "resource_id") as [id|]; [|discriminate].
  exists id. auto.
Qed.

Lemma find_clickable_from_sound (levels : nat) (element r : json) :
  find_clickable_from levels element = Return r ->
  r = JNull \/
  exists d, r = JDict d /\ is_clickable_target d = true /\ reachable levels element r.
Proof.
  revert element r. induction levels as [|deeper IH]; intros element r; simpl.
  - intros H. left. congruence.
  - destruct element as [| | | | | |d]; try discriminate.
    destruct (is_clickable_target d) eqn:Ht.
    + intros H. inversion H; subst. right. exists d. repeat split; auto.
      constructor.
    + destruct (py_iter (Dict.get_default d "children" (JList [])))
        as [children|e] eqn:Hiter; [|discriminate].
      intros H. apply first_found_result in H.
      destruct H as [->|(child & Hin & Hfound & _)]; [now left|].
      destruct (IH child r Hfound) as [->|(d' & -> & Ht' & Hreach)]; [now left|].
      right. exists d'. repeat split; auto.
      eapply reachable_child; eauto.
Qed.

(** What [_find_clickable_element] returns, when it is not [None], is a
    node of the tree within [max_depth] levels of [element] that passes
    the test; so it is a dict whose [resource_id] can be read (no
    [KeyError]) and is truthy, as the caller that clicks it needs. *)
Theorem found_element_is_a_clickable_node (element : json)
    (max_depth current_depth : Z) (r : json) :
  _find_clickable_element element max_depth current_depth = Return r ->
  r <> JNull ->
  exists d : pydict,
    r = JDict d /\
    is_clickable_target d = true /\
    (exists id, getitem d "resource_id" = Return id /\ truthy id = true) /\
    reachable (Z.to_nat (max_depth - current_depth + 1)) element r /\
    current_depth <= max_depth.
Proof.
  intros Hfind Hsome.
  assert (Hdepth : current_depth <= max_depth).
  { rewrite _find_clickable_element_eq in Hfind.
    destruct (Z.ltb_spec max_depth current_depth); [congruence|assumption]. }
  apply find_clickable_from_sound in Hfind.
  destruct Hfind as [->|(d & -> & Ht & Hreach)]; [congruence|].
  exists d. repeat split; auto. now apply target_has_resource_id.
Qed.

Lemma first_found_on_trees (search : json -> outcome json) (has : json -> bool)
    (children : list json) :
  (forall child, In child children ->
     exists r, search child = Return r /\ truthy r = has child) ->
  exists r, first_found search children = Return r /\ truthy r = existsb has children.
Proof.
  induction children as [|c rest IH]; intros Hall; simpl.
  - exists JNull. auto.
  - destruct (Hall c (or_introl eq_refl)) as (rc & -> & Hrc).
    rewrite <- Hrc. destruct (truthy rc) eqn:Ht.
    + exists rc. auto.
    + simpl. apply IH. intros child Hin. apply Hall. now right.
Qed.

Lemma find_clickable_from_on_trees (levels : nat) (element : json) :
  ui_tree levels element = true ->
  exists r, find_clickable_from levels element = Return r /\
            truthy r = has_clickable_target levels element.
Proof.
  revert element. induction levels as [|deeper IH]; intros element; simpl.
  - intros _. exists JNull. auto.
  - destruct element as [| | | | | |d]; try discriminate.
    destruct (is_clickable_target d) eqn:Ht.
    + intros _. exists (JDict d). split; [reflexivity|].
      simpl orb. now apply target_is_truthy.
    + destruct (Dict.get_default d "children" (JList [])) as [| | | | |children|];
        try discriminate.
      intros Hall. simpl py_iter. simpl orb.
      apply first_found_on_trees.
      intros child Hin. apply IH.
      rewrite forallb_forall in Hall. now apply Hall.
Qed.

(** On a UI tree (dicts whose [children] are lists, down to the depth
    the search can reach) [_find_clickable_element] does not raise, and
    it returns [None] exactly when no node within [max_depth] levels
    passes the test; a target further down is not found. *)
Theorem find_clickable_element_on_ui_trees (element : json)
    (max_depth current_depth : Z) :
  ui_tree (Z.to_nat (max_depth - current_depth + 1)) element = true ->
  exists r : json,
    _find_clickable_element element max_depth current_depth = Return r /\
    (r = JNull <->
     has_clickable_target (Z.to_nat (max_depth - current_depth + 1)) element = false).
Proof.
  intros Htree.
  destruct (find_clickable_from_on_trees _ _ Htree) as (r & Hfind & Htruthy).
  exists r. split; [exact Hfind|].
  rewrite <- Htruthy. split; [now intros ->|].
  intros Hfalsy.
  destruct (find_clickable_from_sound _ _ Hfind) as [Hr|(d & -> & Ht & _)];
    [exact Hr|].
  rewrite (target_is_truthy d Ht) in Hfalsy. discriminate.
Qed.

End FindClickable.

(* ================================================================== *)
(** * [main] *)

Module MainFacts.

Import Main.

Section Environment.

Variable parse_args : list string -> ending Namespace.
Variable construct : string -> Z -> ending unit.
Variable serve : string -> Z -> ending unit.

(** The transport is served only in stdio mode: [serve_stdio] is among
    the events of a run exactly when the parsed arguments have [stdio] set
    and the server could be constructed. *)
Theorem main_serves_only_in_stdio_mode (argv : list string) :
  In serve_stdio (fst (main parse_args construct serve argv)) <->
  exists args u,
    parsed parse_args argv = Done args /\
    arg_stdio args = true /\
    construct (arg_android_host args) (arg_android_port args) = Done u.
Proof.
  unfold main, parsed, try_body.
  destruct (parse_args _) as [args|s]; simpl.
  2:{ split; [tauto|]. intros (args & u & H & _). discriminate. }
  destruct (construct (arg_android_host args) (arg_android_port args))
    as [u|s] eqn:Hc.
  - destruct (arg_stdio args) eqn:Hs.
    + split.
      * intros _. exists args, u. auto.
      * intros _.
        destruct (serve _ _) as [?|[e| |code]];
          destruct (arg_debug args); simpl; rewrite ?in_app_iff; simpl; tauto.
    + split.
      * destruct (arg_debug args); simpl; intuition discriminate.
      * intros (args' & u' & Heq & Hs' & _). inversion Heq; subst. congruence.
  - split.
    + destruct s as [e| |code]; destruct (arg_debug args); simpl;
        intuition discriminate.
    + intros (args' & u' & Heq & _ & Hc'). inversion Heq; subst. congruence.
Qed.

(** When the arguments are parsed without [stdio] set (any command line
    with arguments but no [--stdio]) and the server is constructed, the
    run logs that only stdio is supported and ends with [sys.exit(1)]: the
    [SystemExit] is no [Exception], so the [except] clauses let it pass. *)
Theorem main_without_stdio_exits_1 (argv : list string) (args : Namespace) (u : unit) :
  parsed parse_args argv = Done args ->
  arg_stdio args = false ->
  construct (arg_android_host args) (arg_android_port args) = Done u ->
  snd (main parse_args construct serve argv) = Stopped (SystemExit 1) /\
  In (log_error "Only stdio transport is currently supported")
     (fst (main parse_args construct serve argv)) /\
  forall e, ~ In (log_error ("Server error: " ++ message e))
                 (fst (main parse_args construct serve argv)).
Proof.
  unfold main, parsed, try_body. intros -> -> ->.
  destruct (arg_debug args); simpl;
    (split; [reflexivity|]); (split; [tauto|]);
    intros e H;
    repeat (destruct H as [H|H]; [try discriminate H; inversion H|]);
    exact H.
Qed.

(** Once the arguments are parsed, no [Exception] and no
    [KeyboardInterrupt] leaves [main]: an exception of the constructor or
    of the transport is logged as a server error and becomes exit status
    1, an interrupt is logged and [main] returns. *)
Theorem main_contains_failures (argv : list string) (args : Namespace) :
  parsed parse_args argv = Done args ->
  (forall e, snd (main parse_args construct serve argv) <> Stopped (ExceptionRaised e)) /\
  snd (main parse_args construct serve argv) <> Stopped KeyboardInterrupt /\
  (forall e,
      construct (arg_android_host args) (arg_android_port args)
        = Stopped (ExceptionRaised e) \/
      (arg_stdio args = true /\
       (exists u, construct (arg_android_host args) (arg_android_port args) = Done u) /\
       serve (arg_android_host args) (arg_android_port args)
         = Stopped (ExceptionRaised e)) ->
      snd (main parse_args construct serve argv) = Stopped (SystemExit 1) /\
      In (log_error ("Server error: " ++ message e))
         (fst (main parse_args construct serve argv))).
Proof.
  unfold main, parsed, try_body. intros ->.
  destruct (construct (arg_android_host args) (arg_android_port args))
    as [u|[ec| |code]] eqn:Hc;
    destruct (arg_stdio args) eqn:Hs;
    try (destruct (serve (arg_android_host args) (arg_android_port args))
           as [u'|[es| |code']] eqn:Hserve);
    destruct (arg_debug args); simpl;
    (split; [intros e; discriminate|]);
    (split; [discriminate|]);
    intros e [H|(H1 & (u0 & H2) & H3)]; try discriminate;
    try (inversion H; subst); try (inversion H3; subst);
    (split; [reflexivity|]); rewrite ?in_app_iff; simpl; tauto.
Qed.

End Environment.

End MainFacts.

(* ================================================================== *)
(** * Runs of the further properties *)

Lemma status_below_400_returns_body_witness :
  fst (Mock.ok (device Mock.server) (issued Mock.server "GET" "/health" None))
    = Return (Mock.json_response 200 (JDict [("success", JBool true)])) /\
  status (Mock.json_response 200 (JDict [("success", JBool true)])) < 400 /\
  decode_body (Mock.json_response 200 (JDict [("success", JBool true)]))
    = Return (JDict [("success", JBool true)]) /\
  fst (_make_request Mock.ok "GET" "/health" None Mock.server)
    = Return (JDict [("success", JBool true)]).
Proof.
  split; [reflexivity|]. split; [simpl; lia|]. split; [reflexivity|].
  apply (status_below_400_returns_body Mock.ok "GET" "/health" None Mock.server
           (response := Mock.json_response 200 (JDict [("success", JBool true)]))).
  - reflexivity.
  - simpl; lia.
  - reflexivity.
Defined.

Lemma text_body_is_wrapped_witness :
  let response :=
    mkResponse 404 "text/plain" (Raise (ValueError "Expecting value")) (Return "Not Found") in
  let backend := Mock.always (Return response) in
  fst (backend (device Mock.server) (issued Mock.server "GET" "/ui/dump/xml" None))
    = Return response /\
  content_type response <> "application/json" /\
  response_text response = Return "Not Found" /\
  fst (_make_request backend "GET" "/ui/dump/xml" None Mock.server) =
    Return (JDict [("content", JStr "Not Found"); ("http_status", JInt 404)]).
Proof.
  intros response backend.
  assert (Htype : content_type response <> "application/json") by discriminate.
  split; [reflexivity|]. split; [exact Htype|]. split; [reflexivity|].
  exact (text_body_is_wrapped backend "GET" "/ui/dump/xml" None Mock.server
           (response := response) eq_refl Htype eq_refl).
Defined.

Lemma error_status_with_non_dict_body_witness :
  let response := Mock.json_response 503 (JList [JStr "busy"]) in
  let backend := Mock.always (Return response) in
  fst (backend (device Mock.server) (issued Mock.server "GET" "/health" None))
    = Return response /\
  400 <= status response /\
  decode_body response = Return (JList [JStr "busy"]) /\
  (forall d, JList [JStr "busy"] <> JDict d) /\
  exists msg : string,
    setitem (JList [JStr "busy"]) "http_status" (JInt (status response))
      = Raise (TypeError msg) /\
    fst (_make_request backend "GET" "/health" None Mock.server) =
      Return (JDict [("success", JBool false);
                     ("error", JStr ("Unexpected error: " ++ msg));
                     ("error_type", JStr "unknown_error")]).
Proof.
  intros response backend.
  assert (Hstatus : 400 <= status response) by (simpl; lia).
  assert (Hnd : forall d, JList [JStr "busy"] <> JDict d) by (intros d; discriminate).
  split; [reflexivity|]. split; [exact Hstatus|]. split; [reflexivity|].
  split; [exact Hnd|].
  exact (error_status_with_non_dict_body backend "GET" "/health" None Mock.server
           (response := response) eq_refl Hstatus eq_refl Hnd).
Defined.

Lemma required_arguments_decide_dispatch_witness :
  let tool := mkTool "press_back" "Press the Android back button" no_parameters in
  In tool handle_list_tools /\
  exists req : http_request,
    snd (handle_call_tool Mock.ok (name tool) [] Mock.server)
      = after_request Mock.ok Mock.server req.
Proof.
  intro tool.
  assert (Hin : In tool handle_list_tools) by (simpl; tauto).
  split; [exact Hin|].
  exact (required_arguments_decide_dispatch Mock.ok [] Mock.server Hin).
Defined.

Lemma tools_without_parameters_ignore_arguments_witness :
  let tool := mkTool "press_home" "Press the Android home button" no_parameters in
  let arguments := [("text", JStr "ignored")] in
  In tool handle_list_tools /\
  inputSchema tool = no_parameters /\
  handle_call_tool Mock.ok (name tool) arguments Mock.server
    = handle_call_tool Mock.ok (name tool) [] Mock.server /\
  exists req : http_request,
    snd (handle_call_tool Mock.ok (name tool) arguments Mock.server)
      = after_request Mock.ok Mock.server req /\
    req_json req = None.
Proof.
  intros tool arguments.
  assert (Hin : In tool handle_list_tools) by (simpl; tauto).
  split; [exact Hin|]. split; [reflexivity|].
  exact (tools_without_parameters_ignore_arguments Mock.ok arguments Mock.server
           Hin eq_refl).
Defined.

Lemma declared_defaults_are_applied_witness :
  exists tool : Tool,
    name tool = "wait_for_element" /\
    let arguments := [("selector", JDict [("text", JStr "Loading")])] in
    In tool handle_list_tools /\
    declared_default (inputSchema tool) "timeout" = Some (JInt 5000) /\
    first_missing (required_keys (inputSchema tool)) arguments = None /\
    Dict.get arguments "timeout" = None /\
    exists (req : http_request) (data : pydict),
      snd (handle_call_tool Mock.ok (name tool) arguments Mock.server)
        = after_request Mock.ok Mock.server req /\
      req_json req = Some (JDict data) /\
      Dict.get data "timeout" = Some (JInt 5000).
Proof.
  exists (nth 4 handle_list_tools (mkTool "" "" JNull)).
  split; [reflexivity|]. cbv zeta.
  assert (Hin : In (nth 4 handle_list_tools (mkTool "" "" JNull)) handle_list_tools)
    by (simpl; tauto).
  split; [exact Hin|]. split; [reflexivity|]. split; [reflexivity|].
  split; [reflexivity|].
  exact (declared_defaults_are_applied Mock.ok "timeout"
           [("selector", JDict [("text", JStr "Loading")])] Mock.server
           Hin eq_refl eq_refl eq_refl).
Defined.

Lemma click_element_without_criteria_witness :
  let arguments := [("resource_id", JNull); ("text", JNull)] in
  (forall k v, In (k, v) arguments -> v = JNull) /\
  requests (snd (handle_call_tool Mock.ok "click_element" arguments Mock.server)) =
    (requests Mock.server ++
       [mkRequest "POST" (base_url (android_client Mock.server) ++ "/ui/click")
          (Some (JDict [("selector", JDict [])]))])%list.
Proof.
  intro arguments.
  assert (Hnull : forall k v, In (k, v) arguments -> v = JNull).
  { intros k v [H|[H|[]]]; inversion H; reflexivity. }
  split; [exact Hnull|].
  exact (click_element_without_criteria Mock.ok arguments Mock.server Hnull).
Defined.

Lemma transport_failure_is_reported_as_data_witness :
  let tool := mkTool "get_device_info" "Get Android device information" no_parameters in
  let e := mkException true "ClientConnectorError" "Cannot connect to host localhost:8080" in
  In tool handle_list_tools /\
  first_missing (required_keys (inputSchema tool)) [] = None /\
  (forall req, fst (Mock.unreachable (device Mock.server) req) = Raise e) /\
  exists ensure_ascii : bool,
    fst (handle_call_tool Mock.unreachable (name tool) [] Mock.server) =
      Return [mkTextContent "text" (json_dumps (failure_object e) 2 ensure_ascii)].
Proof.
  intros tool e.
  assert (Hin : In tool handle_list_tools) by (simpl; tauto).
  assert (Hraise : forall req, fst (Mock.unreachable (device Mock.server) req) = Raise e)
    by reflexivity.
  split; [exact Hin|]. split; [reflexivity|]. split; [exact Hraise|].
  exact (transport_failure_is_reported_as_data Mock.unreachable [] Mock.server
           Hin eq_refl Hraise).
Defined.

Lemma found_element_is_a_clickable_node_witness :
  let button := JDict [("class_name", JStr "android.widget.Button");
                       ("resource_id", JStr "com.example:id/ok");
                       ("clickable", JBool true)] in
  let root := JDict [("class_name", JStr "android.widget.FrameLayout");
                     ("clickable", JBool false);
                     ("children", JList [button])] in
  _find_clickable_element root 3 0 = Return button /\
  button <> JNull /\
  exists d : pydict,
    button = JDict d /\
    is_clickable_target d = true /\
    (exists id, getitem d "resource_id" = Return id /\ truthy id = true) /\
    reachable (Z.to_nat (3 - 0 + 1)) root button /\
    0 <= 3.
Proof.
  intros button root.
  assert (Hsome : button <> JNull) by discriminate.
  split; [reflexivity|]. split; [exact Hsome|].
  exact (FindClickable.found_element_is_a_clickable_node root 3 0 eq_refl Hsome).
Defined.

Lemma find_clickable_element_on_ui_trees_witness :
  let deep :=
    JDict [("children",
            JList [JDict [("children",
                           JList [JDict [("resource_id", JStr "com.example:id/deep");
                                         ("clickable", JBool true)]])]])] in
  ui_tree (Z.to_nat (1 - 0 + 1)) deep = true /\
  exists r : json,
    _find_clickable_element deep 1 0 = Return r /\
    (r = JNull <-> has_clickable_target (Z.to_nat (1 - 0 + 1)) deep = false).
Proof.
  intro deep. split; [reflexivity|].
  exact (FindClickable.find_clickable_element_on_ui_trees deep 1 0 eq_refl).
Defined.

Lemma main_without_stdio_exits_1_witness :
  let args := Main.mkNamespace "192.168.1.100" 9999 false false in
  let parse_args := fun _ : list string => Main.Done args in
  let construct := fun (_ : string) (_ : Z) => Main.Done tt in
  let serve := fun (_ : string) (_ : Z) => Main.Done tt in
  let argv := ["main.py"; "--android-host"; "192.168.1.100"; "--android-port"; "9999"] in
  Main.parsed parse_args argv = Main.Done args /\
  Main.arg_stdio args = false /\
  construct (Main.arg_android_host args) (Main.arg_android_port args) = Main.Done tt /\
  snd (Main.main parse_args construct serve argv) = Main.Stopped (Main.SystemExit 1) /\
  In (Main.log_error "Only stdio transport is currently supported")
     (fst (Main.main parse_args construct serve argv)) /\
  forall e, ~ In (Main.log_error ("Server error: " ++ message e))
                 (fst (Main.main parse_args construct serve argv)).
Proof.
  intros args parse_args construct serve argv.
  split; [reflexivity|]. split; [reflexivity|]. split; [reflexivity|].
  exact (MainFacts.main_without_stdio_exits_1 parse_args construct serve argv
           (args := args) (u := tt) eq_refl eq_refl eq_refl).
Defined.

Lemma main_contains_failures_witness :
  let args := Main.mkNamespace "localhost" 8080 true false in
  let parse_args := fun _ : list string => Main.Done args in
  let construct := fun (_ : string) (_ : Z) => Main.Done tt in
  let serve := fun (_ : string) (_ : Z) =>
    @Main.Stopped unit (Main.ExceptionRaised (mkException false "RuntimeError" "stream closed")) in
  Main.parsed parse_args ["main.py"] = Main.Done args /\
  snd (Main.main parse_args construct serve ["main.py"]) = Main.Stopped (Main.SystemExit 1).
Proof.
  intros args parse_args construct serve.
  split; [reflexivity|].
  destruct (MainFacts.main_contains_failures parse_args construct serve ["main.py"]
              (args := args) eq_refl) as (_ & _ & Hfail).
  apply (Hfail (mkException false "RuntimeError" "stream closed")).
  right. split; [reflexivity|]. split; [exists tt; reflexivity|reflexivity].
Defined.

Section GivenParameters.

Variable W : Type.
Variable backend : W -> http_request -> outcome http_response * W.

#[local] Arguments String.eqb : simpl nomatch.

(** A default applies only to a key that is absent: when a call holds a
    value under a parameter for which the schema declares a default, that
    value is what the body of the request carries, also when the value is
    [None] or lies outside what the schema allows. *)
Theorem given_parameters_override_defaults (tool : Tool) (param : string)
    (default given : json) (arguments : pydict) (st : state W) :
  In tool handle_list_tools ->
  declared_default (inputSchema tool) param = Some default ->
  first_missing (required_keys (inputSchema tool)) arguments = None ->
  Dict.get arguments param = Some given ->
  exists (req : http_request) (data : pydict),
    snd (handle_call_tool backend (name tool) arguments st)
      = after_request backend st req /\
    req_json req = Some (JDict data) /\
    Dict.get data param = Some given.
Proof.
  intros Hin Hdefault Hrequired Hgiven.
  unfold declared_default in Hdefault.
  simpl in Hin;
    repeat match type of Hin with
           | _ \/ _ => destruct Hin as [<-|Hin]
           end; try contradiction;
    cbn [name inputSchema] in *;
    unfold no_parameters, string_property, selector_property, typed in Hdefault;
    cbn in Hdefault;
    repeat match type of Hdefault with
           | context [String.eqb ?lit param] =>
               destruct (String.eqb_spec lit param) as [<-|_];
               [vm_compute in Hdefault|cbn in Hdefault]
           end;
    try discriminate Hdefault;
    clear Hdefault;
    unfold first_missing in Hrequired; cbn in Hrequired.
  - destruct (Dict.get arguments "text") as [text|] eqn:Ht; [|discriminate].
    destruct (Dict.get arguments "selector") as [selector|] eqn:Hs; [|discriminate].
    rewrite (input_text_run backend arguments st Ht Hs). simpl snd.
    do 2 eexists. split; [reflexivity|]. split; [reflexivity|].
    unfold Dict.get_default. rewrite Hgiven. reflexivity.
  - destruct (Dict.get arguments "direction") as [direction|] eqn:Hd; [|discriminate].
    rewrite (scroll_screen_run backend arguments st Hd). simpl snd.
    do 2 eexists. split; [reflexivity|]. split; [reflexivity|].
    unfold Dict.get_default. rewrite Hgiven. reflexivity.
  - destruct (Dict.get arguments "selector") as [selector|] eqn:Hs; [|discriminate].
    rewrite (wait_for_element_run backend arguments st Hs). simpl snd.
    do 2 eexists. split; [reflexivity|]. split; [reflexivity|].
    unfold Dict.get_default. rewrite Hgiven. reflexivity.
  - destruct (Dict.get arguments "selector") as [selector|] eqn:Hs; [|discriminate].
    rewrite (wait_for_element_run backend arguments st Hs). simpl snd.
    do 2 eexists. split; [reflexivity|]. split; [reflexivity|].
    unfold Dict.get_default. rewrite Hgiven. reflexivity.
Qed.

End GivenParameters.

Lemma given_parameters_override_defaults_witness :
  exists tool : Tool,
    name tool = "scroll_screen" /\
    let arguments := [("direction", JStr "down"); ("steps", JNull)] in
    In tool handle_list_tools /\
    declared_default (inputSchema tool) "steps" = Some (JInt 1) /\
    first_missing (required_keys (inputSchema tool)) arguments = None /\
    Dict.get arguments "steps" = Some JNull /\
    exists (req : http_request) (data : pydict),
      snd (handle_call_tool Mock.ok (name tool) arguments Mock.server)
        = after_request Mock.ok Mock.server req /\
      req_json req = Some (JDict data) /\
      Dict.get data "steps" = Some JNull.
Proof.
  exists (nth 3 handle_list_tools (mkTool "" "" JNull)).
  split; [reflexivity|]. cbv zeta.
  assert (Hin : In (nth 3 handle_list_tools (mkTool "" "" JNull)) handle_list_tools)
    by (simpl; tauto).
  split; [exact Hin|]. split; [reflexivity|]. split; [reflexivity|].
  split; [reflexivity|].
  exact (given_parameters_override_defaults Mock.ok "steps"
           [("direction", JStr "down"); ("steps", JNull)] Mock.server
           Hin eq_refl eq_refl eq_refl).
Defined.

(* ================================================================== *)
(** * [scroll_screen] through the registration *)

Module SchemaFacts.

Lemma less_than_int (a b : Z) :
  JsonSchema.less_than (JInt a) (JInt b) = (a <? b).
Proof.
  unfold JsonSchema.less_than, JsonSchema.number_of, JsonSchema.number_ltb.
  cbn. now rewrite !Z.mul_1_r.
Qed.

(** What a valid [scroll_screen] call holds: a [direction], and a
    [steps], if any, that is an integer not below 1 and not above 10. *)
Lemma valid_scroll_arguments (schema : json) (arguments : pydict) :
  tool_schema "scroll_screen" = Some schema ->
  JsonSchema.valid schema (JDict arguments) = true ->
  (exists direction, Dict.get arguments "direction" = Some direction) /\
  (forall steps, Dict.get arguments "steps" = Some steps ->
     JsonSchema.has_type "integer" steps = true /\
     JsonSchema.less_than steps (JInt 1) = false /\
     JsonSchema.less_than (JInt 10) steps = false).
Proof.
  intros Hschema. vm_compute in Hschema. injection Hschema as <-.
  cbn -[JsonSchema.has_type JsonSchema.less_than JsonSchema.equal].
  intros Hvalid. split.
  - destruct (Dict.get arguments "direction") as [direction|];
      [eexists; reflexivity|].
    repeat match goal with
           | H : _ && _ = true |- _ => apply andb_true_iff in H; destruct H
           end; discriminate.
  - intros steps Hsteps. rewrite Hsteps in Hvalid.
    repeat match goal with
           | H : _ && _ = true |- _ => apply andb_true_iff in H; destruct H
           end.
    repeat match goal with
           | H : negb _ = true |- _ => apply negb_true_iff in H
           end.
    auto.
Qed.

End SchemaFacts.

Section RegisteredScroll.

Variable W : Type.
Variable backend : W -> http_request -> outcome http_response * W.

(** A call that fails the check of its schema is answered at once. *)
Lemma call_tool_rejected (tool_name : string) (schema : json) (arguments : pydict)
    (st : state W) :
  tool_schema tool_name = Some schema ->
  JsonSchema.valid schema (JDict arguments) = false ->
  call_tool backend tool_name arguments st = (Return InputValidationError, st).
Proof. intros Hs Hv. unfold call_tool. rewrite Hs, Hv. reflexivity. Qed.

(** A call that passes it is the call of the handler. *)
Lemma call_tool_accepted (tool_name : string) (schema : json) (arguments : pydict)
    (st : state W) :
  tool_schema tool_name = Some schema ->
  JsonSchema.valid schema (JDict arguments) = true ->
  snd (call_tool backend tool_name arguments st)
    = snd (handle_call_tool backend tool_name arguments st).
Proof.
  intros Hs Hv. unfold call_tool. rewrite Hs, Hv.
  unfold try_except, bind.
  destruct (handle_call_tool_cases backend tool_name arguments st)
    as [(req & ea & ->)|(e & ->)]; reflexivity.
Qed.

(** C6. For every [scroll_screen] call made through the registered
    handler: when the arguments pass the check of the declared schema,
    there is a [direction] and one request [POST /ui/scroll] is sent whose
    [steps] is the value the caller gave, or 1 when the caller gave none;
    when they fail it, the call is answered with an input validation
    error and the state is unchanged, so no request has been sent. A
    [steps] below 1 or above 10 always fails the check. *)
Theorem scroll_screen_steps_default_and_range (arguments : pydict) (st : state W) :
  exists schema : json,
    tool_schema "scroll_screen" = Some schema /\
    (if JsonSchema.valid schema (JDict arguments)
     then
       exists direction : json,
         Dict.get arguments "direction" = Some direction /\
         requests (snd (call_tool backend "scroll_screen" arguments st)) =
           (requests st ++
              [mkRequest "POST" (base_url (android_client st) ++ "/ui/scroll")
                 (Some (JDict [("direction", direction);
                               ("steps",
                                match Dict.get arguments "steps" with
                                | Some steps => steps
                                | None => JInt 1
                                end)]))])%list
     else
       call_tool backend "scroll_screen" arguments st
         = (Return InputValidationError, st)) /\
    (forall steps,
        Dict.get arguments "steps" = Some steps ->
        JsonSchema.less_than steps (JInt 1) = true \/
        JsonSchema.less_than (JInt 10) steps = true ->
        call_tool backend "scroll_screen" arguments st
          = (Return InputValidationError, st)) /\
    (forall n : Z,
        Dict.get arguments "steps" = Some (JInt n) ->
        n < 1 \/ 10 < n ->
        call_tool backend "scroll_screen" arguments st
          = (Return InputValidationError, st)).
Proof.
  destruct (tool_schema "scroll_screen") as [schema|] eqn:Hschema;
    [|vm_compute in Hschema; discriminate].
  exists schema. split; [reflexivity|].
  assert (Hrange : forall steps,
             Dict.get arguments "steps" = Some steps ->
             JsonSchema.less_than steps (JInt 1) = true \/
             JsonSchema.less_than (JInt 10) steps = true ->
             call_tool backend "scroll_screen" arguments st
               = (Return InputValidationError, st)).
  { intros steps Hsteps Hout.
    apply (call_tool_rejected "scroll_screen" arguments st Hschema).
    destruct (JsonSchema.valid schema (JDict arguments)) eqn:Hvalid; [|reflexivity].
    destruct (SchemaFacts.valid_scroll_arguments arguments Hschema Hvalid)
      as (_ & Hsteps_ok).
    destruct (Hsteps_ok steps Hsteps) as (_ & Hlow & Hhigh).
    destruct Hout; congruence. }
  split; [|split; [exact Hrange|]].
  - destruct (JsonSchema.valid schema (JDict arguments)) eqn:Hvalid.
    + destruct (SchemaFacts.valid_scroll_arguments arguments Hschema Hvalid)
        as ((direction & Hd) & _).
      exists direction. split; [exact Hd|].
      rewrite (call_tool_accepted "scroll_screen" arguments st Hschema Hvalid).
      rewrite (scroll_screen_run backend arguments st Hd). reflexivity.
    + now apply (call_tool_rejected "scroll_screen" arguments st Hschema).
  - intros n Hsteps Hout. apply (Hrange (JInt n) Hsteps).
    rewrite !SchemaFacts.less_than_int.
    destruct Hout; [left|right]; now apply Z.ltb_lt.
Qed.

End RegisteredScroll.

(** Runs through the registration: three steps, no steps, and steps out
    of range on either side. *)
Example registered_scroll_three_steps :
  call_tool Mock.ok "scroll_screen" [("direction", JStr "down"); ("steps", JInt 3)]
    Mock.server =
  (Return (Content [mkTextContent "text"
                      (json_dumps (JDict [("success", JBool true)]) 2 true)]),
   after_request Mock.ok Mock.server
     (mkRequest "POST" "http://localhost:8080/ui/scroll"
        (Some (JDict [("direction", JStr "down"); ("steps", JInt 3)])))).
Proof. reflexivity. Qed.

Example registered_scroll_default_steps :
  requests (snd (call_tool Mock.ok "scroll_screen" [("direction", JStr "down")]
                   Mock.server)) =
    [mkRequest "POST" "http://localhost:8080/ui/scroll"
       (Some (JDict [("direction", JStr "down"); ("steps", JInt 1)]))].
Proof. reflexivity. Qed.

Example registered_scroll_out_of_range :
  call_tool Mock.ok "scroll_screen" [("direction", JStr "down"); ("steps", JInt 50)]
    Mock.server = (Return InputValidationError, Mock.server) /\
  call_tool Mock.ok "scroll_screen" [("direction", JStr "down"); ("steps", JInt 0)]
    Mock.server = (Return InputValidationError, Mock.server).
Proof. split; reflexivity. Qed.
